(** * Schema validation of the Cannizzaro student record

    A shallow embedding of [day_4/day_4_helpers.py]: the four controlled
    vocabularies, the four hand-written field validators, and the five
    nested pydantic models composed by [CannizzaroStudent].

    The models of the source are declarations; what they do on an input is
    fixed by pydantic (v2, lax mode, [field_validator] in its default
    "after" mode).  That behaviour is written out here as ordinary
    functions: a field is looked up by name, type-checked, constrained,
    and then handed to its field validator; the errors of all fields of
    all groups are collected, and construction raises one
    [ValidationError] when the collection is not empty. *)

From Stdlib Require Import ZArith Ascii String.
From Stdlib Require Import Floats.SpecFloat.
From stdpp Require Import gmap strings list fin_maps.

Set Warnings "-register-all".
Local Open Scope string_scope.
Local Open Scope nat_scope.

(** ** Python strings

    A [str] is modelled as a [string] whose characters are the code points
    0..255, one [ascii] per code point; [len] is [String.length]. *)

Module PyStr.

(** [str.isspace] on one code point below 256. *)
Definition is_space (c : ascii) : bool :=
  let n := N_of_ascii c in
  ((9 <=? n) && (n <=? 13) || (28 <=? n) && (n <=? 32)
   || (n =? 133) || (n =? 160))%N.

(** [str.lower] on one code point below 256: A-Z and the upper-case
    letters of Latin-1 (all of 0xC0..0xDE but the multiplication sign). *)
Definition lower_char (c : ascii) : ascii :=
  let n := N_of_ascii c in
  if ((65 <=? n) && (n <=? 90)
      || (192 <=? n) && (n <=? 222) && negb (n =? 215))%N
  then ascii_of_N (n + 32) else c.

Fixpoint lower (s : string) : string :=
  match s with
  | EmptyString => EmptyString
  | String c r => String (lower_char c) (lower r)
  end.

Definition is_empty (s : string) : bool :=
  match s with EmptyString => true | String _ _ => false end.

Fixpoint lstrip (s : string) : string :=
  match s with
  | EmptyString => EmptyString
  | String c r => if is_space c then lstrip r else s
  end.

Fixpoint rstrip (s : string) : string :=
  match s with
  | EmptyString => EmptyString
  | String c r =>
      let r' := rstrip r in
      if is_space c && is_empty r' then EmptyString else String c r'
  end.

Definition strip (s : string) : string := rstrip (lstrip s).

(** [repr] of a [str] without quotes, backslashes or control characters
    (every vocabulary token is one), and of a list of such. *)
Definition repr (s : string) : string := "'" ++ s ++ "'".

Fixpoint join (sep : string) (l : list string) : string :=
  match l with
  | [] => ""
  | [x] => x
  | x :: r => x ++ sep ++ join sep r
  end.

Definition repr_list (l : list string) : string :=
  "[" ++ join ", " (map repr l) ++ "]".

(** [needle in hay]. *)
Definition contains (hay needle : string) : bool :=
  match String.index 0 needle hay with Some _ => true | None => false end.

End PyStr.

(** ** Enum-style literals and valid options for multi-select fields *)

Definition ClassSectionType : list string := ["a"; "b"; "c"; "d"; "e"].
Definition WeekendStyleType : list string := ["chill"; "party"; "explore"; "study"].
Definition BestWorkTimeType : list Z := [1; 2; 3; 4]%Z.
Definition HumorStyleType : list string := ["dry"; "quirky"; "dark"; "basic"].

Definition VALID_SPORTS : list string :=
  ["soccer"; "basketball"; "volleyball"; "tennis"; "swimming";
   "rowing"; "running"; "cycling"; "skiing"; "martial_arts"; "none"].

Definition VALID_MUSIC_GENRES : list string :=
  ["pop"; "rock"; "hip_hop"; "rap"; "edm"; "classical"; "jazz";
   "r_and_b"; "country"; "metal"; "indie"; "latin"; "kpop"; "other"].

Definition VALID_HOBBIES : list string :=
  ["gaming"; "reading"; "cooking"; "photography"; "art"; "music";
   "travel"; "hiking"; "movies"; "anime"; "programming"; "hackathons";
   "fashion"; "fitness"; "social_media"; "podcasts"; "crafts";
   "volunteering"; "languages"; "writing"; "none"].

Definition VALID_SUBJECTS : list string :=
  ["math"; "physics"; "chemistry"; "biology"; "computer_science";
   "literature"; "history"; "art"; "music"; "economics"; "philosophy";
   "physical_education"; "foreign_languages"; "engineering"; "other"].

(** ** Raw input values

    What a decoded form submission or JSON body holds: [None], booleans,
    integers, floats, strings, lists and string-keyed dictionaries.  A
    [float] is given by its sign, mantissa and exponent
    ([S754_finite s m e] is [m * 2 ^ e], negated when [s]), or is a zero,
    an infinity or a NaN. *)

Inductive pyval : Type :=
| PNone
| PBool (b : bool)
| PInt (z : Z)
| PFloat (x : spec_float)
| PStr (s : string)
| PList (l : list pyval)
| PDict (d : gmap string pyval).

(** ** Validation errors

    One entry of [ValidationError.errors()]: where ([loc], a path of
    dictionary keys and list indices) and what ([etype], pydantic's error
    type with its context).  A [ValueError] raised by a field validator
    becomes [value_error] and keeps the exception's message. *)

Inductive loc_item : Type := Key (k : string) | Idx (i : nat).

Inductive error_type : Type :=
| missing
| model_type
| int_type
| int_parsing
| int_parsing_size
| int_from_float
| finite_number
| string_type
| list_type
| greater_than_equal (bound : Z)
| greater_than (bound : Z)
| less_than_equal (bound : Z)
| string_too_short (min_length : nat)
| string_too_long (max_length : nat)
| too_short (min_length : nat)
| literal_error
| value_error (msg : string).

Record error : Type := ErrorDetails { loc : list loc_item; etype : error_type }.

Inductive ValueError : Type := ValueError_ (msg : string).

Inductive exn : Type := ValidationError (errors : list error).

(** The result of validating one value: the validated value, or the errors
    found.  Errors of independent parts are concatenated. *)

Inductive val (A : Type) : Type :=
| Valid (a : A)
| Invalid (errs : list error).
Arguments Valid {A} a.
Arguments Invalid {A} errs.

(** What a call does: return or raise. *)

Inductive outcome (A : Type) : Type :=
| Return (a : A)
| Raise (e : exn).
Arguments Return {A} a.
Arguments Raise {A} e.

Module Val.

Definition errors {A} (x : val A) : list error :=
  match x with Valid _ => [] | Invalid es => es end.

Definition map {A B} (f : A → B) (x : val A) : val B :=
  match x with Valid a => Valid (f a) | Invalid es => Invalid es end.

(** Both sides are evaluated; the errors of both are kept, in order. *)
Definition ap {A B} (f : val (A → B)) (x : val A) : val B :=
  match f, x with
  | Valid g, Valid a => Valid (g a)
  | Valid _, Invalid es => Invalid es
  | Invalid es, Valid _ => Invalid es
  | Invalid es1, Invalid es2 => Invalid (es1 ++ es2)
  end.

(** A later step that runs only on a validated value. *)
Definition bind {A B} (x : val A) (k : A → val B) : val B :=
  match x with Valid a => k a | Invalid es => Invalid es end.

Definition fail {A} (t : error_type) : val A := Invalid [ErrorDetails [] t].

(** Errors of a part are reported under the part's key or index. *)
Definition under (i : loc_item) (e : error) : error :=
  ErrorDetails (i :: loc e) (etype e).

Definition at_loc {A} (i : loc_item) (x : val A) : val A :=
  match x with
  | Valid a => Valid a
  | Invalid es => Invalid (List.map (under i) es)
  end.

End Val.

Notation "f <$$> x" := (Val.map f x) (at level 61, left associativity).
Notation "f <**> x" := (Val.ap f x) (at level 61, left associativity).
Notation "x >>== k" := (Val.bind x k) (at level 62, left associativity).

(** ** The records of the source *)

Record Demographics : Type := mkDemographics {
  alias : string;
  siblings : Z;
  commute_time_min : Z;
  class_section : string;
  hometown : string
}.

Record Academics : Type := mkAcademics {
  academic_interest : Z;
  favorite_subject : string
}.

Record Behavioral : Type := mkBehavioral {
  social_style : Z;
  weekend_style : string;
  best_work_time : Z;
  humor_style : string
}.

Record Activities : Type := mkActivities {
  sports : list string;
  music_genres : list string;
  hobbies : list string
}.

Record DigitalMetrics : Type := mkDigitalMetrics {
  avg_screen_time_min : Z;
  phone_pickups_daily : Z
}.

Record CannizzaroStudent : Type := mkCannizzaroStudent {
  demographics : Demographics;
  academics : Academics;
  behavioral : Behavioral;
  activities : Activities;
  digital_metrics : DigitalMetrics
}.

(** ** Field validators of the source *)

(** [for x in result: if x not in vocabulary: raise ValueError(msg x)]:
    the loop stops at the first element that is not in the vocabulary. *)
Fixpoint first_invalid (vocabulary : list string) (result : list string)
  : option string :=
  match result with
  | [] => None
  | x :: rest =>
      if decide (x ∈ vocabulary) then first_invalid vocabulary rest
      else Some x
  end.

Definition validate_subject (v : string) : ValueError + string :=
  let v_lower := PyStr.strip (PyStr.lower v) in
  if decide (v_lower ∈ VALID_SUBJECTS) then inr v_lower
  else inl (ValueError_ ("favorite_subject must be one of "
                          ++ PyStr.repr_list VALID_SUBJECTS)).

Definition validate_sports (v : list string) : ValueError + list string :=
  let result := map (fun s => PyStr.strip (PyStr.lower s)) v in
  match first_invalid VALID_SPORTS result with
  | Some sport =>
      inl (ValueError_ ("Invalid sport '" ++ sport ++ "'. Must be one of "
                        ++ PyStr.repr_list VALID_SPORTS))
  | None => inr result
  end.

Definition validate_genres (v : list string) : ValueError + list string :=
  let result := map (fun g => PyStr.strip (PyStr.lower g)) v in
  match first_invalid VALID_MUSIC_GENRES result with
  | Some genre =>
      inl (ValueError_ ("Invalid music genre '" ++ genre ++ "'. Must be one of "
                        ++ PyStr.repr_list VALID_MUSIC_GENRES))
  | None => inr result
  end.

Definition validate_hobbies (v : list string) : ValueError + list string :=
  let result := map (fun h => PyStr.strip (PyStr.lower h)) v in
  match first_invalid VALID_HOBBIES result with
  | Some hobby =>
      inl (ValueError_ ("Invalid hobby '" ++ hobby ++ "'. Must be one of "
                        ++ PyStr.repr_list VALID_HOBBIES))
  | None => inr result
  end.

(** ** Numbers that are equal to an integer

    The integer a [float] is equal to, when it is equal to one: [2.0] is
    [2], and [2.5], the infinities and NaN are equal to none. *)

Definition float_integer (x : spec_float) : option Z :=
  match x with
  | S754_zero _ => Some 0%Z
  | S754_finite s m e =>
      let n := Z.shiftl (Z.pos m) e in
      if (Z.shiftl n (- e) =? Z.pos m)%Z
      then Some (if s then - n else n)%Z
      else None
  | S754_infinity _ | S754_nan => None
  end.

(** The integers that fit in 64 bits. *)
Definition is_i64 (n : Z) : bool :=
  ((- 2 ^ 63 <=? n) && (n <? 2 ^ 63))%Z.

(** The integer that a value which is no [int] is equal to ([True == 1],
    [1.0 == 1]); such a value is the same dictionary key as that
    integer. *)
Definition equal_int (v : pyval) : option Z :=
  match v with
  | PBool b => Some (if b then 1 else 0)%Z
  | PFloat x => float_integer x
  | _ => None
  end.

(** ** A reader of decimal integers

    pydantic accepts a [str] where an [int] is declared when the string
    reads as an integer.  Its reader is not part of the source and the
    models below take it as a parameter; this one instantiates it in the
    examples.  Between blanks it reads an optional sign and decimal
    digits, which single underscores may separate and which a point
    followed by zeros only may end. *)

Module Decimal.

(** The blanks that are trimmed: the code points below 256 that are
    Unicode white space (the separators 28..31 are not). *)
Definition is_blank (c : ascii) : bool :=
  let n := N_of_ascii c in
  ((9 <=? n) && (n <=? 13) || (n =? 32) || (n =? 133) || (n =? 160))%N.

Fixpoint ltrim (s : string) : string :=
  match s with
  | EmptyString => EmptyString
  | String c r => if is_blank c then ltrim r else s
  end.

Fixpoint rtrim (s : string) : string :=
  match s with
  | EmptyString => EmptyString
  | String c r =>
      let r' := rtrim r in
      if is_blank c && PyStr.is_empty r' then EmptyString else String c r'
  end.

Definition trim (s : string) : string := rtrim (ltrim s).

Definition digit (c : ascii) : option Z :=
  let n := N_of_ascii c in
  if ((48 <=? n) && (n <=? 57))%N then Some (Z.of_N (n - 48)) else None.

Fixpoint zeros (s : string) : bool :=
  match s with
  | EmptyString => true
  | String c r => (N_of_ascii c =? 48)%N && zeros r
  end.

(** What may follow a digit: a digit, an underscore and a digit, or the
    point and zeros to the end. *)
Fixpoint digits (acc : Z) (s : string) : option Z :=
  match s with
  | EmptyString => Some acc
  | String "." r => if zeros r then Some acc else None
  | String "_" (String c r) =>
      match digit c with
      | Some d => digits (10 * acc + d) r
      | None => None
      end
  | String c r =>
      match digit c with
      | Some d => digits (10 * acc + d) r
      | None => None
      end
  end.

Definition unsigned (s : string) : option Z :=
  match s with
  | EmptyString => None
  | String c r =>
      match digit c with
      | Some d => digits d r
      | None => None
      end
  end.

Definition str_as_int (s : string) : option Z :=
  match trim s with
  | String "-" r => Z.opp <$> unsigned r
  | String "+" r => unsigned r
  | t => unsigned t
  end.

End Decimal.

(** ** The models *)

Section Models.

(** pydantic's lax-mode reader of integers written as strings. *)
Variable str_as_int : string → option Z.

(** *** Core validators: the declared type and the [Field] bounds *)

(** A [float] where an [int] is declared: it has to be finite, without
    a fractional part, and strictly between [-2 ^ 63] and [2 ^ 63]. *)
Definition float_as_int (x : spec_float) : val Z :=
  match x with
  | S754_infinity _ | S754_nan => Val.fail finite_number
  | _ =>
      match float_integer x with
      | None => Val.fail int_from_float
      | Some n =>
          if ((- 2 ^ 63 <? n) && (n <? 2 ^ 63))%Z then Valid n
          else Val.fail int_parsing_size
      end
  end.

(** [int], lax mode: an [int] of any size, a [bool], a [float] equal to
    an integer, or a [str] that reads as one. *)
Definition int_validator (v : pyval) : val Z :=
  match v with
  | PInt z => Valid z
  | PBool b => Valid (if b then 1 else 0)%Z
  | PFloat x => float_as_int x
  | PStr s =>
      match str_as_int s with
      | Some z => Valid z
      | None => Val.fail int_parsing
      end
  | _ => Val.fail int_type
  end.

(** [Field(..., ge=, gt=, le=)]: each bound that is given is checked, the
    upper bound first; the first one violated is the error. *)
Definition check_le (c_le : option Z) (n : Z) : val Z :=
  match c_le with
  | Some b => if (b <? n)%Z then Val.fail (less_than_equal b) else Valid n
  | None => Valid n
  end.

Definition check_ge (c_ge : option Z) (n : Z) : val Z :=
  match c_ge with
  | Some b => if (n <? b)%Z then Val.fail (greater_than_equal b) else Valid n
  | None => Valid n
  end.

Definition check_gt (c_gt : option Z) (n : Z) : val Z :=
  match c_gt with
  | Some b => if (n <=? b)%Z then Val.fail (greater_than b) else Valid n
  | None => Valid n
  end.

Definition int_bounds (c_ge c_gt c_le : option Z) (n : Z) : val Z :=
  check_le c_le n >>== check_ge c_ge >>== check_gt c_gt.

Definition Field_int (c_ge c_gt c_le : option Z) (v : pyval) : val Z :=
  int_validator v >>== int_bounds c_ge c_gt c_le.

(** [str]: only a [str]; nothing is stripped or case-folded. *)
Definition str_validator (v : pyval) : val string :=
  match v with
  | PStr s => Valid s
  | _ => Val.fail string_type
  end.

(** [Field(..., min_length=, max_length=)] on a [str]: [len(v)]. *)
Definition str_bounds (min_length max_length : nat) (s : string) : val string :=
  if (String.length s <? min_length)%nat then Val.fail (string_too_short min_length)
  else if (max_length <? String.length s)%nat then Val.fail (string_too_long max_length)
  else Valid s.

Definition Field_str (min_length max_length : nat) (v : pyval) : val string :=
  str_validator v >>== str_bounds min_length max_length.

(** [Literal["a", ...]]: the input itself is one of the literals. *)
Definition Literal_str (expected : list string) (v : pyval) : val string :=
  match v with
  | PStr s => if decide (s ∈ expected) then Valid s else Val.fail literal_error
  | _ => Val.fail literal_error
  end.

(** [Literal[1, ...]]: an [int] is looked up among the literals as a
    64-bit integer, and one that does not fit is an error of its own.
    Any other input is looked up in the dictionary of the literals, by
    hash and equality: [True] and [1.0] are the key [1], and the value is
    the literal, not the input. *)
Definition Literal_int (expected : list Z) (v : pyval) : val Z :=
  match v with
  | PInt z =>
      if is_i64 z
      then if decide (z ∈ expected) then Valid z else Val.fail literal_error
      else Val.fail int_parsing_size
  | _ =>
      match equal_int v with
      | Some z => if decide (z ∈ expected) then Valid z else Val.fail literal_error
      | None => Val.fail literal_error
      end
  end.

(** The items of a list, each under its index; every item is checked. *)
Fixpoint items {A} (item : pyval → val A) (i : nat) (l : list pyval)
  : val (list A) :=
  match l with
  | [] => Valid []
  | x :: rest =>
      cons <$$> Val.at_loc (Idx i) (item x) <**> items item (S i) rest
  end.

(** [List[str] = Field(..., min_length=)]. *)
Definition Field_list_str (min_length : nat) (v : pyval) : val (list string) :=
  match v with
  | PList l =>
      items str_validator 0 l >>== fun out =>
      if (length out <? min_length)%nat then Val.fail (too_short min_length)
      else Valid out
  | _ => Val.fail list_type
  end.

(** [@field_validator(name)], mode "after": the function runs on the
    value the core validator produced; its [ValueError] is one error. *)
Definition field_validator {A B} (f : A → ValueError + B) (x : val A) : val B :=
  x >>== fun a =>
  match f a with
  | inl (ValueError_ m) => Val.fail (value_error m)
  | inr b => Valid b
  end.

(** A required field ([Field(...)] or no default) of a model. *)
Definition field {A} (name : string) (validator : pyval → val A)
    (d : gmap string pyval) : val A :=
  match d !! name with
  | None => Invalid [ErrorDetails [Key name] missing]
  | Some v => Val.at_loc (Key name) (validator v)
  end.

(** A model as the type of a field: the input is a mapping.  Keys that
    are no field of the model are not looked at ([extra = "ignore"],
    which is also the default). *)
Definition model {A} (fields : gmap string pyval → val A) (v : pyval) : val A :=
  match v with
  | PDict d => fields d
  | _ => Val.fail model_type
  end.

(** *** Nested models for the student document *)

Definition Demographics_validate (d : gmap string pyval) : val Demographics :=
  mkDemographics
    <$$> field "alias" (Field_str 3 30) d
    <**> field "siblings" (Field_int (Some 0%Z) None (Some 20%Z)) d
    <**> field "commute_time_min" (Field_int None (Some 0%Z) (Some 180%Z)) d
    <**> field "class_section" (Literal_str ClassSectionType) d
    <**> field "hometown" (Field_str 2 50) d.

Definition Academics_validate (d : gmap string pyval) : val Academics :=
  mkAcademics
    <$$> field "academic_interest" (Field_int (Some 1%Z) None (Some 5%Z)) d
    <**> field "favorite_subject"
           (fun v => field_validator validate_subject (str_validator v)) d.

Definition Behavioral_validate (d : gmap string pyval) : val Behavioral :=
  mkBehavioral
    <$$> field "social_style" (Field_int (Some 1%Z) None (Some 5%Z)) d
    <**> field "weekend_style" (Literal_str WeekendStyleType) d
    <**> field "best_work_time" (Literal_int BestWorkTimeType) d
    <**> field "humor_style" (Literal_str HumorStyleType) d.

Definition Activities_validate (d : gmap string pyval) : val Activities :=
  mkActivities
    <$$> field "sports"
           (fun v => field_validator validate_sports (Field_list_str 1 v)) d
    <**> field "music_genres"
           (fun v => field_validator validate_genres (Field_list_str 1 v)) d
    <**> field "hobbies"
           (fun v => field_validator validate_hobbies (Field_list_str 1 v)) d.

Definition DigitalMetrics_validate (d : gmap string pyval) : val DigitalMetrics :=
  mkDigitalMetrics
    <$$> field "avg_screen_time_min" (Field_int (Some 0%Z) None (Some 1440%Z)) d
    <**> field "phone_pickups_daily" (Field_int (Some 0%Z) None (Some 500%Z)) d.

(** *** Main student model *)

Definition CannizzaroStudent_validate (raw : gmap string pyval)
  : val CannizzaroStudent :=
  mkCannizzaroStudent
    <$$> field "demographics" (model Demographics_validate) raw
    <**> field "academics" (model Academics_validate) raw
    <**> field "behavioral" (model Behavioral_validate) raw
    <**> field "activities" (model Activities_validate) raw
    <**> field "digital_metrics" (model DigitalMetrics_validate) raw.

(** Construction of a [CannizzaroStudent] from the raw mapping: the
    record is returned, or [ValidationError] is raised. *)
Definition CannizzaroStudent_new (raw : gmap string pyval)
  : outcome CannizzaroStudent :=
  match CannizzaroStudent_validate raw with
  | Valid student => Return student
  | Invalid es => Raise (ValidationError es)
  end.

End Models.

(** ** What a record exposes

    [model_dump()]: the declared fields of each model, by name. *)

Definition Demographics_dump (x : Demographics) : pyval :=
  PDict (list_to_map
    [("alias", PStr (alias x)); ("siblings", PInt (siblings x));
     ("commute_time_min", PInt (commute_time_min x));
     ("class_section", PStr (class_section x));
     ("hometown", PStr (hometown x))]).

Definition Academics_dump (x : Academics) : pyval :=
  PDict (list_to_map
    [("academic_interest", PInt (academic_interest x));
     ("favorite_subject", PStr (favorite_subject x))]).

Definition Behavioral_dump (x : Behavioral) : pyval :=
  PDict (list_to_map
    [("social_style", PInt (social_style x));
     ("weekend_style", PStr (weekend_style x));
     ("best_work_time", PInt (best_work_time x));
     ("humor_style", PStr (humor_style x))]).

Definition Activities_dump (x : Activities) : pyval :=
  PDict (list_to_map
    [("sports", PList (PStr <$> sports x));
     ("music_genres", PList (PStr <$> music_genres x));
     ("hobbies", PList (PStr <$> hobbies x))]).

Definition DigitalMetrics_dump (x : DigitalMetrics) : pyval :=
  PDict (list_to_map
    [("avg_screen_time_min", PInt (avg_screen_time_min x));
     ("phone_pickups_daily", PInt (phone_pickups_daily x))]).

Definition model_dump (s : CannizzaroStudent) : gmap string pyval :=
  list_to_map
    [("demographics", Demographics_dump (demographics s));
     ("academics", Academics_dump (academics s));
     ("behavioral", Behavioral_dump (behavioral s));
     ("activities", Activities_dump (activities s));
     ("digital_metrics", DigitalMetrics_dump (digital_metrics s))].

(** ** Assignment to a field of a record

    The models are declared without [frozen] and without
    [validate_assignment] (the one [Config] of the source sets [extra]
    only), so an assignment such as [student.demographics.siblings = v]
    stores [v] as it is: no constraint is checked and no field validator
    runs.  One assignment is given for each type of field. *)

Definition assign_siblings (v : Z) (s : CannizzaroStudent) : CannizzaroStudent :=
  let d := demographics s in
  mkCannizzaroStudent
    (mkDemographics (alias d) v (commute_time_min d) (class_section d) (hometown d))
    (academics s) (behavioral s) (activities s) (digital_metrics s).

Definition assign_favorite_subject (v : string) (s : CannizzaroStudent)
  : CannizzaroStudent :=
  mkCannizzaroStudent
    (demographics s)
    (mkAcademics (academic_interest (academics s)) v)
    (behavioral s) (activities s) (digital_metrics s).

Definition assign_sports (v : list string) (s : CannizzaroStudent)
  : CannizzaroStudent :=
  let a := activities s in
  mkCannizzaroStudent
    (demographics s) (academics s) (behavioral s)
    (mkActivities v (music_genres a) (hobbies a))
    (digital_metrics s).

(** ** Vocabulary of the specification *)

(** The error kinds of the specification, read off pydantic's error types.
    A [ValueError] of [validate_subject] is the specification's
    [InvalidEnum], one of a list validator its
    [InvalidVocabularyMember]. *)
Inductive kind : Type :=
| MissingField | TypeMismatch | OutOfRange | TooShort | TooLong
| InvalidEnum | InvalidVocabularyMember.

Definition kind_of (e : error) : kind :=
  match etype e with
  | missing => MissingField
  | model_type | int_type | int_parsing | int_parsing_size | int_from_float
  | finite_number | string_type | list_type => TypeMismatch
  | greater_than_equal _ | greater_than _ | less_than_equal _ => OutOfRange
  | string_too_short _ | too_short _ => TooShort
  | string_too_long _ => TooLong
  | literal_error => InvalidEnum
  | value_error _ =>
      match last (loc e) with
      | Some (Key "favorite_subject") => InvalidEnum
      | _ => InvalidVocabularyMember
      end
  end.

(** The top-level keys of a student document. *)
Definition group_keys : list string :=
  ["demographics"; "academics"; "behavioral"; "activities"; "digital_metrics"].

(** The errors reported at a path or below it. *)
Global Instance loc_item_eq_dec : EqDecision loc_item.
Proof. solve_decision. Defined.

Fixpoint starts_with (p l : list loc_item) : bool :=
  match p, l with
  | [], _ => true
  | a :: p', b :: l' => bool_decide (a = b) && starts_with p' l'
  | _ :: _, [] => false
  end.

Definition errors_at (p : list loc_item) (es : list error) : list error :=
  List.filter (fun e => starts_with p (loc e)) es.

Definition is_returned {A} (o : outcome A) : bool :=
  match o with Return _ => true | Raise _ => false end.

(** [normalizeScalar]: trim, then lowercase; [normalizeList]: the same on
    every element, order and duplicates kept. *)
Definition normalizeScalar (s : string) : string := PyStr.lower (PyStr.strip s).

Definition normalizeList (xs : list string) : list string := map normalizeScalar xs.

Definition normalize_item (v : pyval) : pyval :=
  match v with PStr s => PStr (normalizeScalar s) | _ => v end.

Definition normalize_value (v : pyval) : pyval :=
  match v with
  | PStr s => PStr (normalizeScalar s)
  | PList l => PList (map normalize_item l)
  | _ => v
  end.

(** A change to the sub-mapping of one group. *)
Definition in_group (h : gmap string pyval → gmap string pyval) (v : pyval) : pyval :=
  match v with PDict d => PDict (h d) | _ => v end.

(** [raw[g][f] = v]. *)
Definition set_field (g f : string) (v : pyval) (raw : gmap string pyval)
  : gmap string pyval :=
  alter (in_group (insert f v)) g raw.

Definition normalize_field (raw : gmap string pyval) (gf : string * string)
  : gmap string pyval :=
  alter (in_group (alter normalize_value gf.2)) gf.1 raw.

(** The fields declared [str], a [Literal] of strings, or [List[str]]. *)
Definition string_fields : list (string * string) :=
  [("demographics", "alias"); ("demographics", "class_section");
   ("demographics", "hometown"); ("academics", "favorite_subject");
   ("behavioral", "weekend_style"); ("behavioral", "humor_style");
   ("activities", "sports"); ("activities", "music_genres");
   ("activities", "hobbies")].

(** Those of them that are checked against a set of tokens. *)
Definition token_fields : list (string * string) :=
  [("demographics", "class_section"); ("academics", "favorite_subject");
   ("behavioral", "weekend_style"); ("behavioral", "humor_style");
   ("activities", "sports"); ("activities", "music_genres");
   ("activities", "hobbies")].

(** [normalize]: every string field and every element of every
    list-of-string field trimmed and lowercased. *)
Definition normalize (raw : gmap string pyval) : gmap string pyval :=
  foldl normalize_field raw string_fields.

Definition normalize_tokens (raw : gmap string pyval) : gmap string pyval :=
  foldl normalize_field raw token_fields.

(** The integer fields with their declared bounds. *)
Definition int_fields : list (string * string * Z * Z) :=
  [("demographics", "siblings", 0, 20); ("demographics", "commute_time_min", 1, 180);
   ("academics", "academic_interest", 1, 5); ("behavioral", "social_style", 1, 5);
   ("digital_metrics", "avg_screen_time_min", 0, 1440);
   ("digital_metrics", "phone_pickups_daily", 0, 500)]%Z.

(** The enumeration fields of strings with their literals. *)
Definition str_enum_fields : list (string * string * list string) :=
  [("demographics", "class_section", ClassSectionType);
   ("behavioral", "weekend_style", WeekendStyleType);
   ("behavioral", "humor_style", HumorStyleType)].

(** The list fields with their vocabulary and the message of their
    validator for an element [x]. *)
Definition invalid_sport (x : string) : string :=
  "Invalid sport '" ++ x ++ "'. Must be one of " ++ PyStr.repr_list VALID_SPORTS.
Definition invalid_genre (x : string) : string :=
  "Invalid music genre '" ++ x ++ "'. Must be one of "
  ++ PyStr.repr_list VALID_MUSIC_GENRES.
Definition invalid_hobby (x : string) : string :=
  "Invalid hobby '" ++ x ++ "'. Must be one of " ++ PyStr.repr_list VALID_HOBBIES.

Definition list_fields : list (string * list string * (string → string)) :=
  [("sports", VALID_SPORTS, invalid_sport);
   ("music_genres", VALID_MUSIC_GENRES, invalid_genre);
   ("hobbies", VALID_HOBBIES, invalid_hobby)].

(** The elements of a list whose normalized form is not in a vocabulary. *)
Definition offending (vocabulary : list string) (l : list string) : list string :=
  List.filter (fun x => negb (bool_decide (x ∈ vocabulary)))
    (map (fun s => PyStr.strip (PyStr.lower s)) l).

(** ** The declared constraints, on a record *)

Definition normalized (s : string) : Prop := PyStr.strip (PyStr.lower s) = s.

Definition vocabulary_list (vocabulary : list string) (l : list string) : Prop :=
  l ≠ [] ∧ Forall (fun x => x ∈ vocabulary ∧ normalized x) l.

Definition Demographics_ok (x : Demographics) : Prop :=
  (3 ≤ String.length (alias x) ≤ 30)%nat
  ∧ (0 ≤ siblings x ≤ 20)%Z
  ∧ (0 < commute_time_min x ≤ 180)%Z
  ∧ class_section x ∈ ClassSectionType
  ∧ (2 ≤ String.length (hometown x) ≤ 50)%nat.

Definition Academics_ok (x : Academics) : Prop :=
  (1 ≤ academic_interest x ≤ 5)%Z
  ∧ favorite_subject x ∈ VALID_SUBJECTS ∧ normalized (favorite_subject x).

Definition Behavioral_ok (x : Behavioral) : Prop :=
  (1 ≤ social_style x ≤ 5)%Z
  ∧ weekend_style x ∈ WeekendStyleType
  ∧ best_work_time x ∈ BestWorkTimeType
  ∧ humor_style x ∈ HumorStyleType.

Definition Activities_ok (x : Activities) : Prop :=
  vocabulary_list VALID_SPORTS (sports x)
  ∧ vocabulary_list VALID_MUSIC_GENRES (music_genres x)
  ∧ vocabulary_list VALID_HOBBIES (hobbies x).

Definition DigitalMetrics_ok (x : DigitalMetrics) : Prop :=
  (0 ≤ avg_screen_time_min x ≤ 1440)%Z
  ∧ (0 ≤ phone_pickups_daily x ≤ 500)%Z.

Definition CannizzaroStudent_ok (s : CannizzaroStudent) : Prop :=
  Demographics_ok (demographics s) ∧ Academics_ok (academics s)
  ∧ Behavioral_ok (behavioral s) ∧ Activities_ok (activities s)
  ∧ DigitalMetrics_ok (digital_metrics s).

(** A vocabulary token: lowercase, no leading or trailing whitespace. *)
Definition token_ok (t : string) : Prop := PyStr.lower t = t ∧ PyStr.strip t = t.

(** The errors a construction reports. *)
Definition reported (str_as_int : string → option Z) (raw : gmap string pyval)
  : list error :=
  Val.errors (CannizzaroStudent_validate str_as_int raw).

(** A failed validation names at least one error. *)
Definition proper {A} (x : val A) : Prop := x ≠ Invalid [].

Create HintDb proper.

(** Replacing one field of a document that validates to [r]: construction
    of the changed document returns [r] with that field changed, or it
    raises with one error of a given kind at the field's path. *)
Definition passes (str_as_int : string → option Z) (raw : gmap string pyval)
    (r : CannizzaroStudent) (g f : string) (v : pyval) : Prop :=
  ∃ r', CannizzaroStudent_new str_as_int (set_field g f v raw) = Return r'
        ∧ model_dump r' = set_field g f v (model_dump r).

Definition fails (str_as_int : string → option Z) (raw : gmap string pyval)
    (g f : string) (v : pyval) (k : kind) : Prop :=
  ∃ e, CannizzaroStudent_new str_as_int (set_field g f v raw)
       = Raise (ValidationError [e])
       ∧ loc e = [Key g; Key f] ∧ kind_of e = k.

(** Every field of every group, in declaration order; none has a default. *)
Definition all_fields : list (string * string) :=
  [("demographics", "alias"); ("demographics", "siblings");
   ("demographics", "commute_time_min"); ("demographics", "class_section");
   ("demographics", "hometown");
   ("academics", "academic_interest"); ("academics", "favorite_subject");
   ("behavioral", "social_style"); ("behavioral", "weekend_style");
   ("behavioral", "best_work_time"); ("behavioral", "humor_style");
   ("activities", "sports"); ("activities", "music_genres");
   ("activities", "hobbies");
   ("digital_metrics", "avg_screen_time_min");
   ("digital_metrics", "phone_pickups_daily")].

(** The fields declared [str]. *)
Definition str_fields : list (string * string) :=
  [("demographics", "alias"); ("demographics", "hometown");
   ("academics", "favorite_subject")].

Definition is_str (v : pyval) : bool :=
  match v with PStr _ => true | _ => false end.

Definition is_int (v : pyval) : bool :=
  match v with PInt _ => true | _ => false end.

(** The positions, counted from [i], of the items of a list that are no
    [str]. *)
Fixpoint non_str_indices (i : nat) (l : list pyval) : list nat :=
  match l with
  | [] => []
  | v :: rest =>
      if is_str v then non_str_indices (S i) rest
      else i :: non_str_indices (S i) rest
  end.

(** What the field validators do to a string: [s.lower().strip()]. *)
Definition lower_strip (s : string) : string := PyStr.strip (PyStr.lower s).

(** ** Sample documents *)

Module Sample.

Definition dict (l : list (string * pyval)) : pyval := PDict (list_to_map l).

Definition demographics : list (string * pyval) :=
  [("alias", PStr "Bob"); ("siblings", PInt 2); ("commute_time_min", PInt 25);
   ("class_section", PStr "a"); ("hometown", PStr "Catania")].

Definition academics : list (string * pyval) :=
  [("academic_interest", PInt 4); ("favorite_subject", PStr "Math")].

Definition behavioral : list (string * pyval) :=
  [("social_style", PInt 3); ("weekend_style", PStr "chill");
   ("best_work_time", PInt 2); ("humor_style", PStr "dry")].

Definition activities : list (string * pyval) :=
  [("sports", PList [PStr "Soccer"; PStr "TENNIS"]);
   ("music_genres", PList [PStr "jazz"]);
   ("hobbies", PList [PStr " Reading "])].

Definition digital_metrics : list (string * pyval) :=
  [("avg_screen_time_min", PInt 240); ("phone_pickups_daily", PInt 80)].

(** A document with all five groups valid. *)
Definition student : gmap string pyval :=
  list_to_map
    [("demographics", dict demographics); ("academics", dict academics);
     ("behavioral", dict behavioral); ("activities", dict activities);
     ("digital_metrics", dict digital_metrics)].

(** The record it validates to. *)
Definition record : CannizzaroStudent :=
  mkCannizzaroStudent
    (mkDemographics "Bob" 2 25 "a" "Catania")
    (mkAcademics 4 "math")
    (mkBehavioral 3 "chill" 2 "dry")
    (mkActivities ["soccer"; "tennis"] ["jazz"] ["reading"])
    (mkDigitalMetrics 240 80).

(** The same document without its [activities] group. *)
Definition without_activities : gmap string pyval := delete "activities" student.

(** The same document as read back from the document store. *)
Definition with_id : gmap string pyval := <["_id" := PStr "abc123"]> student.

(** The same document with two sports that are not in the vocabulary. *)
Definition two_unknown_sports : gmap string pyval :=
  set_field "activities" "sports" (PList [PStr "soccer"; PStr "Football"; PStr "cricket"])
    student.

(** The same document with an upper-case class section. *)
Definition upper_section : gmap string pyval :=
  set_field "demographics" "class_section" (PStr "A") student.

(** The same document with an empty list of sports. *)
Definition empty_sports : gmap string pyval :=
  set_field "activities" "sports" (PList []) student.

(** The same document with sports that are no strings among the strings. *)
Definition mixed_sports : gmap string pyval :=
  set_field "activities" "sports"
    (PList [PStr "Football"; PInt 3; PStr "soccer"; PNone]) student.

(** The same document without the hobbies. *)
Definition without_hobbies : gmap string pyval :=
  alter (in_group (delete "hobbies")) "activities" student.

(** The same document with a list where the activities should be. *)
Definition activities_as_list : gmap string pyval :=
  <["activities" := PList [PStr "soccer"]]> student.

End Sample.

(** * Properties *)

(** ** Lower-casing and stripping *)

Module PyStrFacts.
Import PyStr.

Lemma lower_char_idem c : lower_char (lower_char c) = lower_char c.
Proof. by destruct c as [[] [] [] [] [] [] [] []]. Qed.

Lemma is_space_lower_char c : is_space (lower_char c) = is_space c.
Proof. by destruct c as [[] [] [] [] [] [] [] []]. Qed.

Lemma lower_idem s : lower (lower s) = lower s.
Proof. induction s as [|c r IH]; simpl; [done|]. by rewrite lower_char_idem, IH. Qed.

Lemma is_empty_lower s : is_empty (lower s) = is_empty s.
Proof. by destruct s. Qed.

Lemma lstrip_lower s : lstrip (lower s) = lower (lstrip s).
Proof.
  induction s as [|c r IH]; simpl; [done|].
  rewrite is_space_lower_char. by destruct (is_space c).
Qed.

Lemma rstrip_lower s : rstrip (lower s) = lower (rstrip s).
Proof.
  induction s as [|c r IH]; simpl; [done|].
  rewrite is_space_lower_char, IH, is_empty_lower.
  by destruct (is_space c && is_empty (rstrip r)).
Qed.

(** Trimming and lower-casing commute. *)
Lemma strip_lower s : strip (lower s) = lower (strip s).
Proof. unfold strip. by rewrite lstrip_lower, rstrip_lower. Qed.

Lemma lstrip_length s : String.length (lstrip s) ≤ String.length s.
Proof.
  induction s as [|c r IH]; simpl; [done|].
  destruct (is_space c); simpl; lia.
Qed.

Lemma lstrip_idem s : lstrip (lstrip s) = lstrip s.
Proof.
  induction s as [|c r IH]; simpl; [done|].
  destruct (is_space c) eqn:E; [done|]. simpl. by rewrite E.
Qed.

Lemma rstrip_idem s : rstrip (rstrip s) = rstrip s.
Proof.
  induction s as [|c r IH]; simpl; [done|].
  destruct (is_space c && is_empty (rstrip r)) eqn:E; [done|].
  simpl. by rewrite IH, E.
Qed.

(** Stripping on the right keeps a string stripped on the left. *)
Lemma lstrip_rstrip_fixed s : lstrip s = s → lstrip (rstrip s) = rstrip s.
Proof.
  destruct s as [|c r]; simpl; [done|].
  destruct (is_space c) eqn:E; simpl.
  - intros H. pose proof (lstrip_length r) as Hlen.
    rewrite H in Hlen. simpl in Hlen. lia.
  - intros _. by rewrite E.
Qed.

Lemma strip_idem s : strip (strip s) = strip s.
Proof.
  unfold strip.
  rewrite (lstrip_rstrip_fixed (lstrip s)) by apply lstrip_idem.
  apply rstrip_idem.
Qed.

(** What the field validators compute is a fixed point of theirs. *)
Lemma strip_lower_idem s : strip (lower (strip (lower s))) = strip (lower s).
Proof. by rewrite <- (strip_lower (lower s)), lower_idem, strip_idem. Qed.

End PyStrFacts.

(** The specification's normalization is the one of the source. *)
Lemma normalizeScalar_eq s : normalizeScalar s = PyStr.strip (PyStr.lower s).
Proof. unfold normalizeScalar. symmetry. apply PyStrFacts.strip_lower. Qed.

Lemma normalizeScalar_fixed s : normalized s → normalizeScalar s = s.
Proof. unfold normalized. intros H. by rewrite normalizeScalar_eq. Qed.

(** ** Collecting errors *)

Module ValFacts.
Import Val.

Lemma errors_map {A B} (f : A → B) x : errors (f <$$> x) = errors x.
Proof. by destruct x. Qed.

Lemma errors_ap {A B} (f : val (A → B)) x :
  errors (f <**> x) = (errors f ++ errors x)%list.
Proof. destruct f, x; simpl; by rewrite ?app_nil_r. Qed.

Lemma errors_at_loc {A} i (x : val A) :
  errors (at_loc i x) = List.map (under i) (errors x).
Proof. by destruct x. Qed.

Lemma map_Valid_inv {A B} (f : A → B) x b :
  f <$$> x = Valid b → ∃ a, x = Valid a ∧ b = f a.
Proof. destruct x; simpl; [|done]. intros [= <-]. eauto. Qed.

Lemma ap_Valid_inv {A B} (f : val (A → B)) x b :
  f <**> x = Valid b → ∃ g a, f = Valid g ∧ x = Valid a ∧ b = g a.
Proof. destruct f, x; simpl; try done. intros [= <-]. eauto. Qed.

Lemma at_loc_Valid_inv {A} i (x : val A) a :
  at_loc i x = Valid a → x = Valid a.
Proof. by destruct x. Qed.

Lemma at_loc_Valid {A} i (a : A) : at_loc i (Valid a) = Valid a.
Proof. done. Qed.

End ValFacts.

(** ** Looking a field up *)

Section FieldFacts.
Context {A : Type} (name : string) (V : pyval → val A).
Implicit Types d : gmap string pyval.

Lemma field_insert_eq v d :
  field name V (<[name := v]> d) = Val.at_loc (Key name) (V v).
Proof. unfold field. by rewrite lookup_insert_eq. Qed.

Lemma field_insert_ne k v d :
  k ≠ name → field name V (<[k := v]> d) = field name V d.
Proof. intros. unfold field. by rewrite lookup_insert_ne. Qed.

Lemma field_alter_eq h d :
  field name V (alter h name d) = field name (fun v => V (h v)) d.
Proof. unfold field. rewrite lookup_alter_eq. by destruct (d !! name). Qed.

Lemma field_alter_ne k h d :
  k ≠ name → field name V (alter h k d) = field name V d.
Proof. intros. unfold field. by rewrite lookup_alter_ne. Qed.

Lemma field_Valid_inv d a :
  field name V d = Valid a → ∃ v, d !! name = Some v ∧ V v = Valid a.
Proof.
  unfold field. destruct (d !! name) as [v|]; [|done].
  intros H%ValFacts.at_loc_Valid_inv. eauto.
Qed.

Lemma field_Valid d v a :
  d !! name = Some v → V v = Valid a → field name V d = Valid a.
Proof. unfold field. by intros -> ->. Qed.

(** A field depends on its own key only. *)
Lemma field_ext d d' : d !! name = d' !! name → field name V d = field name V d'.
Proof. unfold field. by intros ->. Qed.

End FieldFacts.

Lemma model_Valid_inv {A} (V : gmap string pyval → val A) v a :
  model V v = Valid a → ∃ d, v = PDict d ∧ V d = Valid a.
Proof. destruct v; simpl; try done. eauto. Qed.

Lemma model_in_group {A} (V : gmap string pyval → val A) h v :
  model V (in_group h v) = model (fun d => V (h d)) v.
Proof. by destruct v. Qed.

(** ** Errors at a path *)

Lemma errors_at_app p es1 es2 :
  errors_at p (es1 ++ es2) = (errors_at p es1 ++ errors_at p es2)%list.
Proof. apply List.filter_app. Qed.

Lemma errors_at_under k k' p es :
  errors_at (Key k :: p) (List.map (Val.under (Key k')) es)
  = if decide (k = k') then List.map (Val.under (Key k')) (errors_at p es) else [].
Proof.
  unfold errors_at. induction es as [|e es IH].
  - simpl. by case_decide.
  - cbn [List.map List.filter]. rewrite IH.
    cbn [Val.under loc starts_with]. case_decide as Hk.
    + subst. rewrite bool_decide_eq_true_2 by done. simpl.
      by destruct (starts_with p (loc e)).
    + rewrite bool_decide_eq_false_2 by congruence. done.
Qed.

Lemma errors_at_field {A} k p name (V : pyval → val A) (d : gmap string pyval) :
  errors_at (Key k :: p) (Val.errors (field name V d))
  = if decide (k = name) then
      match d !! name with
      | None => match p with
                | [] => [ErrorDetails [Key name] missing]
                | _ :: _ => []
                end
      | Some v => List.map (Val.under (Key name)) (errors_at p (Val.errors (V v)))
      end
    else [].
Proof.
  unfold field. destruct (d !! name) as [v|].
  - by rewrite ValFacts.errors_at_loc, errors_at_under.
  - simpl. case_decide as Hk.
    + subst. rewrite bool_decide_eq_true_2 by done. by destruct p.
    + case_bool_decide; [simplify_eq|done].
Qed.

Lemma errors_at_nil es : errors_at [] es = es.
Proof. unfold errors_at. induction es as [|e es IH]; [done|]. cbn. by f_equal. Qed.

(** ** A failed validation names at least one error *)

Lemma proper_Valid {A} (a : A) : proper (Valid a).
Proof. done. Qed.

Lemma proper_fail {A} t : proper (@Val.fail A t).
Proof. done. Qed.

Lemma proper_map {A B} (f : A → B) x : proper x → proper (f <$$> x).
Proof. unfold proper. destruct x as [|[|]]; simpl; congruence. Qed.

Lemma proper_ap {A B} (f : val (A → B)) x : proper f → proper x → proper (f <**> x).
Proof. unfold proper. destruct f as [|[|]], x as [|[|]]; simpl; congruence. Qed.

Lemma proper_bind {A B} (x : val A) (k : A → val B) :
  proper x → (∀ a, proper (k a)) → proper (x >>== k).
Proof. unfold proper. destruct x as [|[|]]; simpl; intros; auto; congruence. Qed.

Lemma proper_at_loc {A} i (x : val A) : proper x → proper (Val.at_loc i x).
Proof. unfold proper. destruct x as [|[|]]; simpl; congruence. Qed.

Lemma proper_field {A} name (V : pyval → val A) d :
  (∀ v, proper (V v)) → proper (field name V d).
Proof.
  intros H. unfold field. destruct (d !! name); [|done]. by apply proper_at_loc.
Qed.

Lemma proper_model {A} (V : gmap string pyval → val A) v :
  (∀ d, proper (V d)) → proper (model V v).
Proof. intros H. destruct v; simpl; auto; done. Qed.

Lemma proper_items {A} (item : pyval → val A) i l :
  (∀ v, proper (item v)) → proper (items item i l).
Proof.
  intros H. revert i. induction l as [|x l IH]; intros i; simpl; [done|].
  apply proper_ap; [apply proper_map, proper_at_loc, H | apply IH].
Qed.

Lemma proper_field_validator {A B} (f : A → ValueError + B) x :
  proper x → proper (field_validator f x).
Proof.
  intros H. apply proper_bind; [done|]. intros a. by destruct (f a) as [[]|].
Qed.

#[global] Hint Resolve proper_Valid proper_fail proper_map proper_ap proper_bind
  proper_at_loc proper_field proper_model proper_items proper_field_validator
  : proper.

(** ** The vocabularies *)

(** C8, as the source has it: the vocabularies are fixed lists of 11
    sports (with "none"), 14 music genres, 21 hobbies (with "none") and 15
    subjects (with "other"); within each, the tokens are pairwise
    distinct, lowercase and free of leading and trailing whitespace. *)
Theorem vocabularies_fixed :
  length VALID_SPORTS = 11 ∧ "none" ∈ VALID_SPORTS
  ∧ length VALID_MUSIC_GENRES = 14
  ∧ length VALID_HOBBIES = 21 ∧ "none" ∈ VALID_HOBBIES
  ∧ length VALID_SUBJECTS = 15 ∧ "other" ∈ VALID_SUBJECTS
  ∧ Forall (fun vocabulary => NoDup vocabulary ∧ Forall token_ok vocabulary)
      [VALID_SPORTS; VALID_MUSIC_GENRES; VALID_HOBBIES; VALID_SUBJECTS].
Proof.
  repeat split; try reflexivity; apply (bool_decide_unpack _); by vm_compute.
Qed.

(** C8 as stated fails: Subjects does not have 14 entries. *)
Lemma subjects_not_14 : length VALID_SUBJECTS ≠ 14.
Proof. by vm_compute. Qed.

Section Properties.

Variable str_as_int : string → option Z.

Abbreviation validate := (CannizzaroStudent_validate str_as_int).
Abbreviation new := (CannizzaroStudent_new str_as_int).
Abbreviation reported := (reported str_as_int).

Implicit Types raw d : gmap string pyval.

Lemma new_Return raw r : new raw = Return r ↔ validate raw = Valid r.
Proof.
  unfold CannizzaroStudent_new. destruct (validate raw); split; congruence.
Qed.

Lemma new_Raise raw es : new raw = Raise (ValidationError es) ↔ validate raw = Invalid es.
Proof.
  unfold CannizzaroStudent_new. destruct (validate raw); split; congruence.
Qed.

Lemma reported_eq raw : reported raw = Val.errors (validate raw).
Proof. reflexivity. Qed.

Lemma reported_groups raw :
  reported raw
  = (Val.errors (field "demographics" (model (Demographics_validate str_as_int)) raw)
     ++ Val.errors (field "academics" (model (Academics_validate str_as_int)) raw)
     ++ Val.errors (field "behavioral" (model (Behavioral_validate str_as_int)) raw)
     ++ Val.errors (field "activities" (model Activities_validate) raw)
     ++ Val.errors (field "digital_metrics" (model (DigitalMetrics_validate str_as_int)) raw))%list.
Proof.
  rewrite reported_eq. unfold CannizzaroStudent_validate.
  rewrite !ValFacts.errors_ap, ValFacts.errors_map. by rewrite <- !app_assoc.
Qed.

(** A valid document has its five groups, each a valid mapping. *)
Lemma validate_Valid_inv raw r :
  validate raw = Valid r →
  ∃ d1 d2 d3 d4 d5,
    raw !! "demographics" = Some (PDict d1)
    ∧ Demographics_validate str_as_int d1 = Valid (demographics r)
    ∧ raw !! "academics" = Some (PDict d2)
    ∧ Academics_validate str_as_int d2 = Valid (academics r)
    ∧ raw !! "behavioral" = Some (PDict d3)
    ∧ Behavioral_validate str_as_int d3 = Valid (behavioral r)
    ∧ raw !! "activities" = Some (PDict d4)
    ∧ Activities_validate d4 = Valid (activities r)
    ∧ raw !! "digital_metrics" = Some (PDict d5)
    ∧ DigitalMetrics_validate str_as_int d5 = Valid (digital_metrics r).
Proof.
  unfold CannizzaroStudent_validate. intros H.
  apply ValFacts.ap_Valid_inv in H as (g5 & a5 & H & H5 & ->).
  apply ValFacts.ap_Valid_inv in H as (g4 & a4 & H & H4 & ->).
  apply ValFacts.ap_Valid_inv in H as (g3 & a3 & H & H3 & ->).
  apply ValFacts.ap_Valid_inv in H as (g2 & a2 & H & H2 & ->).
  apply ValFacts.map_Valid_inv in H as (a1 & H1 & ->).
  apply field_Valid_inv in H1 as (v1 & L1 & (d1 & -> & V1)%model_Valid_inv).
  apply field_Valid_inv in H2 as (v2 & L2 & (d2 & -> & V2)%model_Valid_inv).
  apply field_Valid_inv in H3 as (v3 & L3 & (d3 & -> & V3)%model_Valid_inv).
  apply field_Valid_inv in H4 as (v4 & L4 & (d4 & -> & V4)%model_Valid_inv).
  apply field_Valid_inv in H5 as (v5 & L5 & (d5 & -> & V5)%model_Valid_inv).
  exists d1, d2, d3, d4, d5. simpl. by repeat split.
Qed.

Lemma validate_Valid raw d1 d2 d3 d4 d5 a1 a2 a3 a4 a5 :
  raw !! "demographics" = Some (PDict d1) →
  Demographics_validate str_as_int d1 = Valid a1 →
  raw !! "academics" = Some (PDict d2) →
  Academics_validate str_as_int d2 = Valid a2 →
  raw !! "behavioral" = Some (PDict d3) →
  Behavioral_validate str_as_int d3 = Valid a3 →
  raw !! "activities" = Some (PDict d4) →
  Activities_validate d4 = Valid a4 →
  raw !! "digital_metrics" = Some (PDict d5) →
  DigitalMetrics_validate str_as_int d5 = Valid a5 →
  validate raw = Valid (mkCannizzaroStudent a1 a2 a3 a4 a5).
Proof.
  intros L1 V1 L2 V2 L3 V3 L4 V4 L5 V5. unfold CannizzaroStudent_validate.
  rewrite (field_Valid _ _ _ _ _ L1 V1), (field_Valid _ _ _ _ _ L2 V2),
    (field_Valid _ _ _ _ _ L3 V3), (field_Valid _ _ _ _ _ L4 V4),
    (field_Valid _ _ _ _ _ L5 V5).
  done.
Qed.

(** *** Unknown top-level keys *)

Lemma validate_insert_unknown raw k v :
  k ∉ group_keys → validate (<[k := v]> raw) = validate raw.
Proof.
  unfold group_keys. rewrite !not_elem_of_cons. intros (?&?&?&?&?&_).
  unfold CannizzaroStudent_validate. by rewrite !field_insert_ne.
Qed.

Lemma model_dump_keys r : dom (model_dump r) = list_to_set group_keys.
Proof. unfold model_dump. rewrite dom_list_to_map_L. done. Qed.

(** C4: when a document validates, adding an unknown top-level key
    changes nothing: construction returns the same record, and the
    record exposes exactly the five known keys, the extra key not among
    them. *)
Theorem unknown_key_discarded raw r k v :
  new raw = Return r →
  k ∉ group_keys →
  new (<[k := v]> raw) = Return r
  ∧ dom (model_dump r) = list_to_set group_keys
  ∧ model_dump r !! k = None.
Proof.
  intros Hr Hk. split; [|split].
  - apply new_Return. rewrite validate_insert_unknown by done. by apply new_Return.
  - apply model_dump_keys.
  - apply not_elem_of_dom. rewrite model_dump_keys. by rewrite elem_of_list_to_set.
Qed.

(** *** Absent groups *)

(** C3, as the source has it: when a top-level group key is absent, the
    errors reported at or below that key are one [missing] error
    (MissingField) whose path is the group key itself. *)
Theorem absent_group_is_one_missing_error raw g :
  g ∈ group_keys →
  raw !! g = None →
  ∃ e, errors_at [Key g] (reported raw) = [e]
       ∧ loc e = [Key g] ∧ kind_of e = MissingField.
Proof.
  intros Hg Hnone. exists (ErrorDetails [Key g] missing).
  split; [|done].
  rewrite reported_groups, !errors_at_app, !errors_at_field.
  unfold group_keys in Hg. rewrite !elem_of_cons in Hg.
  destruct Hg as [->|[->|[->|[->|[->|Hg]]]]]; [..|by apply elem_of_nil in Hg];
    repeat case_decide; try done; by rewrite Hnone.
Qed.

(** *** Return or raise; no error swallowed, no sibling skipped *)

Lemma proper_float_as_int x : proper (float_as_int x).
Proof. unfold float_as_int. repeat case_match; auto with proper. Qed.

Lemma proper_int_validator v : proper (int_validator str_as_int v).
Proof.
  destruct v as [| | |x|s| |]; simpl; auto using proper_float_as_int with proper.
  by destruct (str_as_int s).
Qed.

Lemma proper_int_bounds c_ge c_gt c_le n : proper (int_bounds c_ge c_gt c_le n).
Proof.
  unfold int_bounds, check_le, check_ge, check_gt.
  repeat apply proper_bind; intros; repeat case_match; auto with proper.
Qed.

Lemma proper_Field_int c_ge c_gt c_le v : proper (Field_int str_as_int c_ge c_gt c_le v).
Proof. apply proper_bind; auto using proper_int_validator, proper_int_bounds. Qed.

Lemma proper_str_validator v : proper (str_validator v).
Proof. destruct v; simpl; auto with proper. Qed.

Lemma proper_Field_str lo hi v : proper (Field_str lo hi v).
Proof.
  apply proper_bind; [apply proper_str_validator|]. intros s. unfold str_bounds.
  repeat case_match; auto with proper.
Qed.

Lemma proper_Literal_str expected v : proper (Literal_str expected v).
Proof. destruct v; simpl; repeat case_match; auto with proper. Qed.

Lemma proper_Literal_int expected v : proper (Literal_int expected v).
Proof. unfold Literal_int. repeat case_match; auto with proper. Qed.

Lemma proper_Field_list_str n v : proper (Field_list_str n v).
Proof.
  destruct v; simpl; auto with proper.
  apply proper_bind; [apply proper_items, proper_str_validator|].
  intros out. case_match; auto with proper.
Qed.

Hint Resolve proper_Field_int proper_str_validator proper_Field_str
  proper_Literal_str proper_Literal_int proper_Field_list_str : proper.

Lemma validate_proper raw : proper (validate raw).
Proof.
  unfold CannizzaroStudent_validate, Demographics_validate, Academics_validate,
    Behavioral_validate, Activities_validate, DigitalMetrics_validate.
  repeat first
    [ apply proper_ap | apply proper_map | apply proper_field; intros ?
    | apply proper_model; intros ? | apply proper_field_validator
    | solve [auto with proper] ].
Qed.

Lemma field_errors_loc {A} name (V : pyval → val A) d e :
  e ∈ Val.errors (field name V d) → starts_with [Key name] (loc e) = true.
Proof.
  unfold field. destruct (d !! name) as [v|].
  - rewrite ValFacts.errors_at_loc, list_elem_of_In, in_map_iff.
    intros (e' & <- & _). simpl. by rewrite bool_decide_eq_true_2.
  - simpl. rewrite list_elem_of_singleton. intros ->. simpl.
    by rewrite bool_decide_eq_true_2.
Qed.

(** The errors of each model are those of its fields, in declaration order. *)
Ltac errors_of_fields :=
  unfold Demographics_validate, Academics_validate, Behavioral_validate,
    Activities_validate, DigitalMetrics_validate;
  rewrite ?ValFacts.errors_ap, ?ValFacts.errors_map, ?errors_at_app, ?errors_at_field.

Lemma reported_at_group raw raw' g :
  raw' !! g = raw !! g →
  errors_at [Key g] (reported raw') = errors_at [Key g] (reported raw).
Proof.
  intros H. rewrite !reported_groups, !errors_at_app, !errors_at_field.
  repeat case_decide; subst; rewrite ?H; done.
Qed.

Lemma reported_at_field raw raw' g f d d' :
  raw !! g = Some (PDict d) → raw' !! g = Some (PDict d') →
  d' !! f = d !! f →
  errors_at [Key g; Key f] (reported raw') = errors_at [Key g; Key f] (reported raw).
Proof.
  intros Hd Hd' H. rewrite !reported_groups, !errors_at_app, !errors_at_field.
  repeat case_decide; subst; rewrite ?Hd, ?Hd'; try done; simpl;
    errors_of_fields; repeat case_decide; subst; rewrite ?H; done.
Qed.

(** C2, as the source has it: construction returns the record when no
    error is reported and otherwise raises one [ValidationError] that
    carries the whole non-empty list of reported errors.  Every reported
    error lies under one of the five group keys; the errors reported
    under a group depend on that group's value alone, and those reported
    under a field of a group on that field's value alone, so no sibling
    group or sibling field swallows or short-circuits another. *)
Theorem construction_returns_or_raises_all_errors raw :
  ((∃ r, new raw = Return r ∧ reported raw = [])
   ∨ (new raw = Raise (ValidationError (reported raw)) ∧ reported raw ≠ []))
  ∧ (∀ e, e ∈ reported raw →
       ∃ g, g ∈ group_keys ∧ starts_with [Key g] (loc e) = true)
  ∧ (∀ g raw', raw' !! g = raw !! g →
       errors_at [Key g] (reported raw') = errors_at [Key g] (reported raw))
  ∧ (∀ g f d raw' d',
       raw !! g = Some (PDict d) → raw' !! g = Some (PDict d') →
       d' !! f = d !! f →
       errors_at [Key g; Key f] (reported raw')
       = errors_at [Key g; Key f] (reported raw)).
Proof.
  split; [|split; [|split]].
  - pose proof (validate_proper raw) as Hp. rewrite reported_eq.
    destruct (validate raw) as [r|es] eqn:E.
    + left. exists r. split; [by apply new_Return | done].
    + right. split; [by apply new_Raise | simpl; congruence].
  - intros e. rewrite reported_groups, !elem_of_app. unfold group_keys.
    intros [H|[H|[H|[H|H]]]]; apply field_errors_loc in H;
      eexists; (split; [|exact H]); set_solver.
  - intros g raw' H. by apply reported_at_group.
  - intros g f d raw' d' Hd Hd' H. by apply (reported_at_field raw raw' g f d d').
Qed.

Lemma new_reported raw :
  reported raw ≠ [] → new raw = Raise (ValidationError (reported raw)).
Proof.
  intros H. rewrite reported_eq in *. apply new_Raise.
  by destruct (validate raw).
Qed.

(** *** List fields and their vocabulary *)

Lemma items_str i (l : list string) : items str_validator i (PStr <$> l) = Valid l.
Proof.
  revert i. induction l as [|s l IH]; intros i; simpl; [done|]. by rewrite IH.
Qed.

Lemma first_invalid_filter vocabulary l :
  first_invalid vocabulary l
  = head (List.filter (fun x => negb (bool_decide (x ∈ vocabulary))) l).
Proof.
  induction l as [|x l IH]; simpl; [done|].
  destruct (decide (x ∈ vocabulary)) as [Hx|Hx].
  - by rewrite bool_decide_eq_true_2.
  - by rewrite bool_decide_eq_false_2.
Qed.

Lemma first_invalid_offending vocabulary l x rest :
  offending vocabulary l = x :: rest →
  first_invalid vocabulary (map (fun s => PyStr.strip (PyStr.lower s)) l) = Some x.
Proof. unfold offending. intros H. by rewrite first_invalid_filter, H. Qed.

Lemma offending_nonempty vocabulary l x rest :
  offending vocabulary l = x :: rest → (length l <? 1) = false.
Proof. by destruct l. Qed.

Lemma list_field_str_list (l : list string) :
  (length l <? 1) = false → Field_list_str 1 (PList (PStr <$> l)) = Valid l.
Proof. intros H. simpl. rewrite items_str. simpl. by rewrite H. Qed.

(** C1, as the source has it: when a list field holds a list of strings
    with at least one element whose normalized form is not in the field's
    vocabulary, construction raises, and the one error reported for that
    field is the validator's [ValueError] (InvalidVocabularyMember), whose
    message names the first offending element, in list order, and the
    whole vocabulary. *)
Theorem vocabulary_error_names_first_offender
    raw d f vocabulary message l x rest :
  (f, vocabulary, message) ∈ list_fields →
  raw !! "activities" = Some (PDict d) →
  d !! f = Some (PList (PStr <$> l)) →
  offending vocabulary l = x :: rest →
  new raw = Raise (ValidationError (reported raw))
  ∧ errors_at [Key "activities"; Key f] (reported raw)
    = [ErrorDetails [Key "activities"; Key f] (value_error (message x))]
  ∧ kind_of (ErrorDetails [Key "activities"; Key f] (value_error (message x)))
    = InvalidVocabularyMember.
Proof.
  intros Hf Hd Hl Hoff.
  assert (errors_at [Key "activities"; Key f] (reported raw)
          = [ErrorDetails [Key "activities"; Key f] (value_error (message x))])
    as Herr.
  { rewrite reported_groups, !errors_at_app, !errors_at_field.
    repeat case_decide; try done. rewrite Hd. simpl. errors_of_fields.
    pose proof (first_invalid_offending _ _ _ _ Hoff) as Hfirst.
    pose proof (list_field_str_list l (offending_nonempty _ _ _ _ Hoff)) as Hlist.
    unfold list_fields in Hf. rewrite !elem_of_cons in Hf.
    destruct Hf as [[= -> -> ->]|[[= -> -> ->]|[[= -> -> ->]|Hf]]];
      [..|by apply elem_of_nil in Hf];
      repeat case_decide; try done; rewrite Hl, Hlist;
      unfold field_validator, validate_sports, validate_genres, validate_hobbies;
      cbn [Val.bind]; rewrite Hfirst; reflexivity. }
  split; [|split; [exact Herr|]].
  - apply new_reported. intros Hnil. by rewrite Hnil in Herr.
  - unfold list_fields in Hf. rewrite !elem_of_cons in Hf.
    destruct Hf as [[= -> -> ->]|[[= -> -> ->]|[[= -> -> ->]|Hf]]];
      [..|by apply elem_of_nil in Hf]; reflexivity.
Qed.

(** *** Replacing one field of a valid document *)

Lemma set_field_lookup raw g f v d :
  raw !! g = Some (PDict d) →
  set_field g f v raw !! g = Some (PDict (<[f := v]> d)).
Proof. intros H. unfold set_field. by rewrite lookup_alter_eq, H. Qed.

Lemma set_field_lookup_ne raw g g' f v :
  g ≠ g' → set_field g f v raw !! g' = raw !! g'.
Proof. intros H. unfold set_field. by rewrite lookup_alter_ne. Qed.

(** The fields of a valid group are valid, with the values of the record. *)
Ltac fields_inv H :=
  repeat (let g := fresh "g" in let a := fresh "a" in let Hf := fresh "Hf" in
          apply ValFacts.ap_Valid_inv in H as (g & a & H & Hf & ->));
  let a := fresh "a" in
  apply ValFacts.map_Valid_inv in H as (a & H & ->).

Lemma Demographics_fields_inv d a :
  Demographics_validate str_as_int d = Valid a →
  field "alias" (Field_str 3 30) d = Valid (alias a)
  ∧ field "siblings" (Field_int str_as_int (Some 0%Z) None (Some 20%Z)) d
    = Valid (siblings a)
  ∧ field "commute_time_min" (Field_int str_as_int None (Some 0%Z) (Some 180%Z)) d
    = Valid (commute_time_min a)
  ∧ field "class_section" (Literal_str ClassSectionType) d = Valid (class_section a)
  ∧ field "hometown" (Field_str 2 50) d = Valid (hometown a).
Proof. unfold Demographics_validate. intros H. fields_inv H. by repeat split. Qed.

Lemma Academics_fields_inv d a :
  Academics_validate str_as_int d = Valid a →
  field "academic_interest" (Field_int str_as_int (Some 1%Z) None (Some 5%Z)) d
  = Valid (academic_interest a)
  ∧ field "favorite_subject"
      (fun v => field_validator validate_subject (str_validator v)) d
    = Valid (favorite_subject a).
Proof. unfold Academics_validate. intros H. fields_inv H. by repeat split. Qed.

Lemma Behavioral_fields_inv d a :
  Behavioral_validate str_as_int d = Valid a →
  field "social_style" (Field_int str_as_int (Some 1%Z) None (Some 5%Z)) d
  = Valid (social_style a)
  ∧ field "weekend_style" (Literal_str WeekendStyleType) d = Valid (weekend_style a)
  ∧ field "best_work_time" (Literal_int BestWorkTimeType) d = Valid (best_work_time a)
  ∧ field "humor_style" (Literal_str HumorStyleType) d = Valid (humor_style a).
Proof. unfold Behavioral_validate. intros H. fields_inv H. by repeat split. Qed.

Lemma Activities_fields_inv d a :
  Activities_validate d = Valid a →
  field "sports" (fun v => field_validator validate_sports (Field_list_str 1 v)) d
  = Valid (sports a)
  ∧ field "music_genres"
      (fun v => field_validator validate_genres (Field_list_str 1 v)) d
    = Valid (music_genres a)
  ∧ field "hobbies" (fun v => field_validator validate_hobbies (Field_list_str 1 v)) d
    = Valid (hobbies a).
Proof. unfold Activities_validate. intros H. fields_inv H. by repeat split. Qed.

Lemma DigitalMetrics_fields_inv d a :
  DigitalMetrics_validate str_as_int d = Valid a →
  field "avg_screen_time_min" (Field_int str_as_int (Some 0%Z) None (Some 1440%Z)) d
  = Valid (avg_screen_time_min a)
  ∧ field "phone_pickups_daily" (Field_int str_as_int (Some 0%Z) None (Some 500%Z)) d
    = Valid (phone_pickups_daily a).
Proof. unfold DigitalMetrics_validate. intros H. fields_inv H. by repeat split. Qed.

(** A valid document: its groups and their fields. *)
Ltac document_inv Hr :=
  apply new_Return in Hr;
  apply validate_Valid_inv in Hr
    as (d1 & d2 & d3 & d4 & d5 & L1 & V1 & L2 & V2 & L3 & V3 & L4 & V4 & L5 & V5);
  pose proof (Demographics_fields_inv _ _ V1) as (F11 & F12 & F13 & F14 & F15);
  pose proof (Academics_fields_inv _ _ V2) as (F21 & F22);
  pose proof (Behavioral_fields_inv _ _ V3) as (F31 & F32 & F33 & F34);
  pose proof (Activities_fields_inv _ _ V4) as (F41 & F42 & F43);
  pose proof (DigitalMetrics_fields_inv _ _ V5) as (F51 & F52).

(** Validation of the document with one field replaced, reduced to the
    validator of that field on the new value. *)
Ltac replaced_field :=
  unfold CannizzaroStudent_validate, set_field;
  rewrite field_alter_eq; rewrite ?field_alter_ne by done;
  unfold field at 1 2 3 4 5;
  repeat match goal with
         | H : _ !! _ = Some (PDict _) |- _ => rewrite H
         end;
  cbn [model in_group Val.at_loc];
  unfold Demographics_validate, Academics_validate, Behavioral_validate,
    Activities_validate, DigitalMetrics_validate;
  rewrite field_insert_eq; rewrite ?field_insert_ne by done;
  repeat match goal with
         | H : field _ _ _ = Valid _ |- _ => rewrite H
         end.

Lemma int_bounds_in c_ge c_gt c_le n :
  (∀ b, c_le = Some b → n ≤ b)%Z → (∀ b, c_ge = Some b → b ≤ n)%Z →
  (∀ b, c_gt = Some b → b < n)%Z →
  int_bounds c_ge c_gt c_le n = Valid n.
Proof.
  intros Hle Hge Hgt. unfold int_bounds, check_le, check_ge, check_gt.
  destruct c_le as [b1|]; cbn [Val.bind].
  - specialize (Hle b1 eq_refl). destruct (Z.ltb_spec b1 n); [lia|].
    cbn [Val.bind]. destruct c_ge as [b2|]; cbn [Val.bind].
    + specialize (Hge b2 eq_refl). destruct (Z.ltb_spec n b2); [lia|].
      cbn [Val.bind]. destruct c_gt as [b3|]; [|done].
      specialize (Hgt b3 eq_refl). by destruct (Z.leb_spec n b3); [lia|].
    + destruct c_gt as [b3|]; [|done].
      specialize (Hgt b3 eq_refl). by destruct (Z.leb_spec n b3); [lia|].
  - destruct c_ge as [b2|]; cbn [Val.bind].
    + specialize (Hge b2 eq_refl). destruct (Z.ltb_spec n b2); [lia|].
      cbn [Val.bind]. destruct c_gt as [b3|]; [|done].
      specialize (Hgt b3 eq_refl). by destruct (Z.leb_spec n b3); [lia|].
    + destruct c_gt as [b3|]; [|done].
      specialize (Hgt b3 eq_refl). by destruct (Z.leb_spec n b3); [lia|].
Qed.

Lemma int_bounds_out c_ge c_gt c_le n :
  (∃ b, c_le = Some b ∧ b < n)%Z ∨ (∃ b, c_ge = Some b ∧ n < b)%Z
  ∨ (∃ b, c_gt = Some b ∧ n ≤ b)%Z →
  ∃ t, int_bounds c_ge c_gt c_le n = Val.fail t
       ∧ ∀ l, kind_of (ErrorDetails l t) = OutOfRange.
Proof.
  intros H. unfold int_bounds, check_le, check_ge, check_gt.
  destruct c_le as [b1|]; [destruct (Z.ltb_spec b1 n)|]; cbn [Val.bind];
    [by eexists|..];
    (destruct c_ge as [b2|]; [destruct (Z.ltb_spec n b2)|]; cbn [Val.bind];
     [by eexists|..]);
    (destruct c_gt as [b3|]; [destruct (Z.leb_spec n b3)|]; cbn [Val.bind];
     [by eexists|..]);
    destruct H as [(b & [= <-] & Hb)|[(b & [= <-] & Hb)|(b & [= <-] & Hb)]]; lia.
Qed.
(** The two ways a changed document is settled. *)
Ltac returns_with tac :=
  eexists; split;
  [ apply new_Return; replaced_field; tac; reflexivity | reflexivity ].

Ltac raises_with tac :=
  eexists; split;
  [ apply new_Raise; replaced_field; tac; reflexivity | split; reflexivity ].

Ltac bound_violated Hn :=
  destruct Hn;
  first [ left; eexists; split; [reflexivity|lia]
        | right; left; eexists; split; [reflexivity|lia]
        | right; right; eexists; split; [reflexivity|lia] ].

(** An integer field takes every integer within its bounds and refuses
    every integer outside them. *)
Lemma int_field_range raw r g f lo hi n :
  new raw = Return r →
  (g, f, lo, hi) ∈ int_fields →
  ((lo ≤ n ≤ hi)%Z → passes str_as_int raw r g f (PInt n))
  ∧ ((n < lo ∨ hi < n)%Z → fails str_as_int raw g f (PInt n) OutOfRange).
Proof.
  intros Hr Hf. document_inv Hr.
  unfold int_fields in Hf. rewrite !elem_of_cons in Hf.
  destruct Hf as [Hf|[Hf|[Hf|[Hf|[Hf|[Hf|Hf]]]]]];
    [..|by apply elem_of_nil in Hf]; injection Hf as -> -> -> ->; split; intros Hn.
  all: try (returns_with ltac:(cbn [Field_int int_validator Val.bind];
                               rewrite int_bounds_in by (intros ? [= <-]; lia))).
  all: match goal with
       | |- fails _ _ ?g ?f (PInt ?n) _ =>
           let Hout := fresh in
           unshelve epose proof (int_bounds_out _ _ _ n _) as (t & Hout & Hk);
           [..| exists (ErrorDetails [Key g; Key f] t);
                split; [|split; [done|apply Hk]];
                apply new_Raise; replaced_field;
                cbn [Field_int int_validator Val.bind];
                rewrite Hout; reflexivity ]
       end.
  all: bound_violated Hn.
Qed.

(** C5: for every integer field with declared bounds [lo] and [hi], a
    valid document with that field set to [lo] or to [hi] still validates,
    to the same record with that field changed; set to [lo - 1] or to
    [hi + 1] it is refused with one error, OutOfRange, at the field's
    path. *)
Theorem int_bounds_inclusive raw r g f lo hi :
  new raw = Return r →
  (g, f, lo, hi) ∈ int_fields →
  passes str_as_int raw r g f (PInt lo)
  ∧ passes str_as_int raw r g f (PInt hi)
  ∧ fails str_as_int raw g f (PInt (lo - 1)) OutOfRange
  ∧ fails str_as_int raw g f (PInt (hi + 1)) OutOfRange.
Proof.
  intros Hr Hf.
  assert (lo ≤ hi)%Z as Hlh.
  { unfold int_fields in Hf. rewrite !elem_of_cons in Hf.
    destruct Hf as [Hf|[Hf|[Hf|[Hf|[Hf|[Hf|Hf]]]]]];
      [..|by apply elem_of_nil in Hf]; injection Hf as -> -> -> ->; lia. }
  repeat split.
  - apply (int_field_range raw r g f lo hi lo Hr Hf). lia.
  - apply (int_field_range raw r g f lo hi hi Hr Hf). lia.
  - apply (int_field_range raw r g f lo hi (lo - 1) Hr Hf). lia.
  - apply (int_field_range raw r g f lo hi (hi + 1) Hr Hf). lia.
Qed.

(** *** Enumerations *)

Lemma is_i64_true n : (- 2 ^ 63 ≤ n < 2 ^ 63)%Z → is_i64 n = true.
Proof.
  intros [H1 H2]. unfold is_i64.
  apply andb_true_intro. split; [by apply Z.leb_le|by apply Z.ltb_lt].
Qed.

Lemma is_i64_false n : (n < - 2 ^ 63 ∨ 2 ^ 63 ≤ n)%Z → is_i64 n = false.
Proof.
  intros H. unfold is_i64. apply andb_false_iff.
  destruct H; [left; by apply Z.leb_gt|right; by apply Z.ltb_ge].
Qed.

Lemma BestWorkTimeType_i64 n : n ∈ BestWorkTimeType → is_i64 n = true.
Proof.
  unfold BestWorkTimeType. rewrite !elem_of_cons.
  intros [->|[->|[->|[->|H]]]]; [done..|by apply elem_of_nil in H].
Qed.

(** C6, as the source has it: every enumeration field, of strings as of
    integers, is matched against its literals without trimming or
    lowercasing: in a valid document, a string that is one of the literals
    is taken and stored as it is, and any other string (such as "A" or
    " chill ") is refused with one error, InvalidEnum, at the field's
    path.  For [best_work_time], an integer that is one of the literals is
    taken and stored as it is; any other integer is refused with one
    error at the field's path: InvalidEnum when the integer fits in 64
    bits, and [int_parsing_size] when it does not. *)
Theorem string_enums_exact raw r g f literals s n :
  new raw = Return r →
  (g, f, literals) ∈ str_enum_fields →
  (s ∈ literals → passes str_as_int raw r g f (PStr s))
  ∧ (s ∉ literals → fails str_as_int raw g f (PStr s) InvalidEnum)
  ∧ (n ∈ BestWorkTimeType →
     passes str_as_int raw r "behavioral" "best_work_time" (PInt n))
  ∧ (n ∉ BestWorkTimeType → (- 2 ^ 63 ≤ n < 2 ^ 63)%Z →
     fails str_as_int raw "behavioral" "best_work_time" (PInt n) InvalidEnum)
  ∧ ((n < - 2 ^ 63 ∨ 2 ^ 63 ≤ n)%Z →
     new (set_field "behavioral" "best_work_time" (PInt n) raw)
     = Raise (ValidationError
                [ErrorDetails [Key "behavioral"; Key "best_work_time"]
                   int_parsing_size])).
Proof.
  intros Hr Hf. document_inv Hr.
  assert (∀ P : Prop, (g, f, literals) ∈ str_enum_fields →
            (g = "demographics" → f = "class_section" → literals = ClassSectionType → P) →
            (g = "behavioral" → f = "weekend_style" → literals = WeekendStyleType → P) →
            (g = "behavioral" → f = "humor_style" → literals = HumorStyleType → P) → P)
    as Hcases.
  { intros P HP H1 H2 H3. unfold str_enum_fields in HP. rewrite !elem_of_cons in HP.
    destruct HP as [HP|[HP|[HP|HP]]]; [..|by apply elem_of_nil in HP];
      injection HP as -> -> ->; auto. }
  split; [|split; [|split; [|split]]].
  - intros Hs. apply (Hcases _ Hf); intros -> -> ->;
      returns_with ltac:(cbn [Literal_str]; rewrite decide_True by done).
  - intros Hs. apply (Hcases _ Hf); intros -> -> ->;
      raises_with ltac:(cbn [Literal_str]; rewrite decide_False by done).
  - intros Hn.
    returns_with ltac:(cbn [Literal_int]; rewrite (BestWorkTimeType_i64 n Hn);
                       rewrite decide_True by done).
  - intros Hn Hfit.
    raises_with ltac:(cbn [Literal_int]; rewrite (is_i64_true n Hfit);
                      rewrite decide_False by done).
  - intros Hbig. apply new_Raise. replaced_field.
    cbn [Literal_int]. rewrite (is_i64_false n Hbig). reflexivity.
Qed.

(** *** Alias and hometown *)

Lemma Field_str_Valid_inv lo hi v s :
  Field_str lo hi v = Valid s → v = PStr s ∧ lo ≤ String.length s ≤ hi.
Proof.
  destruct v; try done. unfold Field_str, str_bounds. cbn [str_validator Val.bind].
  destruct (Nat.ltb_spec (String.length s0) lo); [done|].
  destruct (Nat.ltb_spec hi (String.length s0)); [done|].
  intros [= <-]. split; [done|lia].
Qed.

Lemma str_bounds_in lo hi s :
  lo ≤ String.length s ≤ hi → str_bounds lo hi s = Valid s.
Proof.
  intros H. unfold str_bounds.
  destruct (Nat.ltb_spec (String.length s) lo); [lia|].
  by destruct (Nat.ltb_spec hi (String.length s)); [lia|].
Qed.

Lemma str_bounds_short lo hi s :
  String.length s < lo → str_bounds lo hi s = Val.fail (string_too_short lo).
Proof.
  intros H. unfold str_bounds.
  by destruct (Nat.ltb_spec (String.length s) lo); [|lia].
Qed.

Lemma str_bounds_long lo hi s :
  lo ≤ String.length s → hi < String.length s →
  str_bounds lo hi s = Val.fail (string_too_long hi).
Proof.
  intros H1 H2. unfold str_bounds.
  destruct (Nat.ltb_spec (String.length s) lo); [lia|].
  by destruct (Nat.ltb_spec hi (String.length s)); [|lia].
Qed.

(** C10: the lengths of [alias] (3 to 30) and [hometown] (2 to 50) are
    those of the string as submitted, whitespace included, and the record
    keeps the string as submitted: in a valid document both fields hold
    exactly the strings of the record; replacing either by any string
    whose own length is within the bounds gives the record with that very
    string, and by a shorter or longer one an error TooShort or TooLong at
    the field's path. *)
Theorem alias_hometown_raw_length raw r s :
  new raw = Return r →
  (∃ d, raw !! "demographics" = Some (PDict d)
        ∧ d !! "alias" = Some (PStr (alias (demographics r)))
        ∧ d !! "hometown" = Some (PStr (hometown (demographics r))))
  ∧ (3 ≤ String.length s ≤ 30 →
     passes str_as_int raw r "demographics" "alias" (PStr s))
  ∧ (String.length s < 3 → fails str_as_int raw "demographics" "alias" (PStr s) TooShort)
  ∧ (30 < String.length s → fails str_as_int raw "demographics" "alias" (PStr s) TooLong)
  ∧ (2 ≤ String.length s ≤ 50 →
     passes str_as_int raw r "demographics" "hometown" (PStr s))
  ∧ (String.length s < 2 →
     fails str_as_int raw "demographics" "hometown" (PStr s) TooShort)
  ∧ (50 < String.length s →
     fails str_as_int raw "demographics" "hometown" (PStr s) TooLong).
Proof.
  intros Hr. document_inv Hr.
  split; [|repeat split; intros Hs].
  - exists d1. split; [done|].
    apply field_Valid_inv in F11 as (v1 & -> & [-> _]%Field_str_Valid_inv).
    by apply field_Valid_inv in F15 as (v5 & -> & [-> _]%Field_str_Valid_inv).
  - returns_with ltac:(cbn [Field_str str_validator Val.bind];
                       rewrite str_bounds_in by done).
  - raises_with ltac:(cbn [Field_str str_validator Val.bind];
                      rewrite str_bounds_short by done).
  - raises_with ltac:(cbn [Field_str str_validator Val.bind];
                      rewrite str_bounds_long by lia).
  - returns_with ltac:(cbn [Field_str str_validator Val.bind];
                       rewrite str_bounds_in by done).
  - raises_with ltac:(cbn [Field_str str_validator Val.bind];
                      rewrite str_bounds_short by done).
  - raises_with ltac:(cbn [Field_str str_validator Val.bind];
                      rewrite str_bounds_long by lia).
Qed.

(** *** What a validated value is *)

Lemma Field_int_Valid_inv c_ge c_gt c_le v n :
  Field_int str_as_int c_ge c_gt c_le v = Valid n →
  (∀ b, c_le = Some b → n ≤ b)%Z ∧ (∀ b, c_ge = Some b → b ≤ n)%Z
  ∧ (∀ b, c_gt = Some b → b < n)%Z.
Proof.
  unfold Field_int. destruct (int_validator str_as_int v) as [m|]; [|done].
  unfold int_bounds, check_le, check_ge, check_gt. cbn [Val.bind].
  destruct c_le as [b1|]; [destruct (Z.ltb_spec b1 m); [done|]|]; cbn [Val.bind];
    (destruct c_ge as [b2|]; [destruct (Z.ltb_spec m b2); [done|]|]; cbn [Val.bind]);
    (destruct c_gt as [b3|]; [destruct (Z.leb_spec m b3); [done|]|]);
    intros [= <-]; repeat split; intros b [= <-]; lia.
Qed.

Lemma Literal_str_Valid_inv expected v s :
  Literal_str expected v = Valid s → v = PStr s ∧ s ∈ expected.
Proof.
  destruct v; try done. simpl. case_decide; [|done]. by intros [= <-].
Qed.

Lemma Literal_int_Valid_inv expected v n :
  Literal_int expected v = Valid n → n ∈ expected.
Proof.
  unfold Literal_int. repeat case_match; try done; by intros [= <-].
Qed.

Lemma field_validator_Valid_inv {A B} (f : A → ValueError + B) x b :
  field_validator f x = Valid b → ∃ a, x = Valid a ∧ f a = inr b.
Proof.
  destruct x as [a|]; [|done]. unfold field_validator. cbn [Val.bind].
  destruct (f a) as [[m]|b'] eqn:E; [done|]. intros [= <-]. eauto.
Qed.

Lemma str_validator_Valid_inv v s : str_validator v = Valid s → v = PStr s.
Proof. destruct v; try done. by intros [= <-]. Qed.

Lemma items_str_Valid_inv i l out :
  items str_validator i l = Valid out → l = PStr <$> out.
Proof.
  revert i out. induction l as [|x l IH]; intros i out; simpl.
  - by intros [= <-].
  - intros H. apply ValFacts.ap_Valid_inv in H as (g & a & H1 & H2 & ->).
    apply ValFacts.map_Valid_inv in H1 as (s & H1 & ->).
    apply ValFacts.at_loc_Valid_inv, str_validator_Valid_inv in H1 as ->.
    by rewrite (IH _ _ H2).
Qed.

Lemma Field_list_str_Valid_inv v out :
  Field_list_str 1 v = Valid out → v = PList (PStr <$> out) ∧ out ≠ [].
Proof.
  destruct v; try done. simpl.
  destruct (items str_validator 0 l) as [a|] eqn:E; [|done]. cbn [Val.bind].
  apply items_str_Valid_inv in E as ->.
  destruct a; simpl; [done|]. by intros [= <-].
Qed.

Lemma first_invalid_None vocabulary l :
  first_invalid vocabulary l = None → Forall (fun x => x ∈ vocabulary) l.
Proof.
  induction l as [|x l IH]; simpl; [by constructor|].
  case_decide as Hx; [|done]. intros Hrest. constructor; auto.
Qed.

Lemma Forall_normalized (l : list string) :
  Forall normalized (map (fun s => PyStr.strip (PyStr.lower s)) l).
Proof.
  induction l as [|s l IH]; simpl; constructor; [|done].
  apply PyStrFacts.strip_lower_idem.
Qed.

Lemma map_normalizeScalar (l : list string) :
  map (fun s => PyStr.strip (PyStr.lower s)) (map normalizeScalar l)
  = map (fun s => PyStr.strip (PyStr.lower s)) l.
Proof.
  induction l as [|s l IH]; simpl; [done|].
  by rewrite IH, normalizeScalar_eq, PyStrFacts.strip_lower_idem.
Qed.

(** The three list validators: what they return, and that they do not
    tell a list from its normalization. *)
Ltac list_validator_inr :=
  let H := fresh in
  intros H;
  match type of H with
  | context [first_invalid ?V ?l] =>
      destruct (first_invalid V l) eqn:E; [done|];
      injection H as <-;
      split; [done|split; [by apply first_invalid_None|apply Forall_normalized]]
  end.

Lemma validate_sports_inr v l :
  validate_sports v = inr l →
  l = map (fun s => PyStr.strip (PyStr.lower s)) v
  ∧ Forall (fun x => x ∈ VALID_SPORTS) l ∧ Forall normalized l.
Proof. unfold validate_sports. list_validator_inr. Qed.

Lemma validate_genres_inr v l :
  validate_genres v = inr l →
  l = map (fun s => PyStr.strip (PyStr.lower s)) v
  ∧ Forall (fun x => x ∈ VALID_MUSIC_GENRES) l ∧ Forall normalized l.
Proof. unfold validate_genres. list_validator_inr. Qed.

Lemma validate_hobbies_inr v l :
  validate_hobbies v = inr l →
  l = map (fun s => PyStr.strip (PyStr.lower s)) v
  ∧ Forall (fun x => x ∈ VALID_HOBBIES) l ∧ Forall normalized l.
Proof. unfold validate_hobbies. list_validator_inr. Qed.

Lemma validate_subject_inr v s :
  validate_subject v = inr s →
  s = PyStr.strip (PyStr.lower v) ∧ s ∈ VALID_SUBJECTS ∧ normalized s.
Proof.
  unfold validate_subject. case_decide as Hin; [|done]. intros [= <-].
  split; [done|split; [done|]]. apply PyStrFacts.strip_lower_idem.
Qed.

Lemma validate_sports_normalizeList v :
  validate_sports (normalizeList v) = validate_sports v.
Proof. unfold validate_sports, normalizeList. by rewrite map_normalizeScalar. Qed.

Lemma validate_genres_normalizeList v :
  validate_genres (normalizeList v) = validate_genres v.
Proof. unfold validate_genres, normalizeList. by rewrite map_normalizeScalar. Qed.

Lemma validate_hobbies_normalizeList v :
  validate_hobbies (normalizeList v) = validate_hobbies v.
Proof. unfold validate_hobbies, normalizeList. by rewrite map_normalizeScalar. Qed.

Lemma validate_subject_normalizeScalar v :
  validate_subject (normalizeScalar v) = validate_subject v.
Proof.
  unfold validate_subject.
  by rewrite normalizeScalar_eq, PyStrFacts.strip_lower_idem.
Qed.

Lemma vocabulary_list_intro vocabulary (l0 l : list string) :
  l0 ≠ [] → l = map (fun s => PyStr.strip (PyStr.lower s)) l0 →
  Forall (fun x => x ∈ vocabulary) l → Forall normalized l →
  vocabulary_list vocabulary l.
Proof.
  intros Hne -> Hin Hnorm. split.
  - by destruct l0.
  - apply Forall_forall. intros x Hx.
    rewrite Forall_forall in Hin, Hnorm. auto.
Qed.

(** *** The constraints hold of every constructed record *)

(** C9, as the source has it: every record that construction returns
    satisfies all the declared constraints of its fields; in particular
    [sports], [music_genres] and [hobbies] are non-empty lists of
    normalized members of their vocabularies, and [favorite_subject] is a
    normalized member of the subjects.  This is a property of the record
    as it is returned: the constraints are checked by construction and by
    nothing else. *)
Theorem constructed_record_ok raw r :
  new raw = Return r → CannizzaroStudent_ok r.
Proof.
  intros Hr. document_inv Hr.
  apply field_Valid_inv in F11 as (? & _ & [_ ?]%Field_str_Valid_inv).
  apply field_Valid_inv in F12 as (? & _ & (H12a & H12b & _)%Field_int_Valid_inv).
  apply field_Valid_inv in F13 as (? & _ & (H13a & _ & H13b)%Field_int_Valid_inv).
  apply field_Valid_inv in F14 as (? & _ & [_ ?]%Literal_str_Valid_inv).
  apply field_Valid_inv in F15 as (? & _ & [_ ?]%Field_str_Valid_inv).
  apply field_Valid_inv in F21 as (? & _ & (H21a & H21b & _)%Field_int_Valid_inv).
  apply field_Valid_inv in F22
    as (? & _ & (? & _ & (_ & ? & ?)%validate_subject_inr)%field_validator_Valid_inv).
  apply field_Valid_inv in F31 as (? & _ & (H31a & H31b & _)%Field_int_Valid_inv).
  apply field_Valid_inv in F32 as (? & _ & [_ ?]%Literal_str_Valid_inv).
  apply field_Valid_inv in F33 as (? & _ & ?%Literal_int_Valid_inv).
  apply field_Valid_inv in F34 as (? & _ & [_ ?]%Literal_str_Valid_inv).
  apply field_Valid_inv in F41
    as (? & _ & (l1 & [_ ?]%Field_list_str_Valid_inv
                 & (? & ? & ?)%validate_sports_inr)%field_validator_Valid_inv).
  apply field_Valid_inv in F42
    as (? & _ & (l2 & [_ ?]%Field_list_str_Valid_inv
                 & (? & ? & ?)%validate_genres_inr)%field_validator_Valid_inv).
  apply field_Valid_inv in F43
    as (? & _ & (l3 & [_ ?]%Field_list_str_Valid_inv
                 & (? & ? & ?)%validate_hobbies_inr)%field_validator_Valid_inv).
  apply field_Valid_inv in F51 as (? & _ & (H51a & H51b & _)%Field_int_Valid_inv).
  apply field_Valid_inv in F52 as (? & _ & (H52a & H52b & _)%Field_int_Valid_inv).
  specialize (H12a _ eq_refl). specialize (H12b _ eq_refl).
  specialize (H13a _ eq_refl). specialize (H13b _ eq_refl).
  specialize (H21a _ eq_refl). specialize (H21b _ eq_refl).
  specialize (H31a _ eq_refl). specialize (H31b _ eq_refl).
  specialize (H51a _ eq_refl). specialize (H51b _ eq_refl).
  specialize (H52a _ eq_refl). specialize (H52b _ eq_refl).
  unfold CannizzaroStudent_ok, Demographics_ok, Academics_ok, Behavioral_ok,
    Activities_ok, DigitalMetrics_ok.
  repeat match goal with |- _ ∧ _ => split end;
    try done; try lia.
  - by apply (vocabulary_list_intro _ l1).
  - by apply (vocabulary_list_intro _ l2).
  - by apply (vocabulary_list_intro _ l3).
Qed.

(** *** Normalizing the fields checked against tokens *)

Lemma field_normalized {A} name (V : pyval → val A) d a :
  (∀ v, V v = Valid a → V (normalize_value v) = Valid a) →
  field name V d = Valid a →
  field name (fun v => V (normalize_value v)) d = Valid a.
Proof.
  intros HV (v & Hv & Ha)%field_Valid_inv.
  apply (field_Valid _ _ _ v); [done|]. by apply HV.
Qed.

Lemma Literal_str_normalized expected v s :
  Forall normalized expected →
  Literal_str expected v = Valid s →
  Literal_str expected (normalize_value v) = Valid s.
Proof.
  intros Hexp [-> Hs]%Literal_str_Valid_inv. simpl.
  rewrite Forall_forall in Hexp.
  rewrite (normalizeScalar_fixed s) by auto. by rewrite decide_True.
Qed.

Lemma subject_normalized v s :
  field_validator validate_subject (str_validator v) = Valid s →
  field_validator validate_subject (str_validator (normalize_value v)) = Valid s.
Proof.
  intros (s0 & ->%str_validator_Valid_inv & Hs)%field_validator_Valid_inv.
  unfold field_validator. cbn [normalize_value str_validator Val.bind].
  by rewrite validate_subject_normalizeScalar, Hs.
Qed.

Lemma map_normalize_item (l : list string) :
  map normalize_item (PStr <$> l) = PStr <$> normalizeList l.
Proof. induction l as [|s l IH]; [done|]. cbn. f_equal. exact IH. Qed.

Lemma list_normalized (f : list string → ValueError + list string) v l :
  (∀ l0, f (normalizeList l0) = f l0) →
  field_validator f (Field_list_str 1 v) = Valid l →
  field_validator f (Field_list_str 1 (normalize_value v)) = Valid l.
Proof.
  intros Hf (l0 & [-> Hne]%Field_list_str_Valid_inv & Hl)%field_validator_Valid_inv.
  cbn [normalize_value]. rewrite map_normalize_item.
  rewrite list_field_str_list.
  - unfold field_validator. cbn [Val.bind]. by rewrite Hf, Hl.
  - unfold normalizeList. rewrite length_map. by destruct l0.
Qed.

Lemma literals_normalized :
  Forall normalized ClassSectionType ∧ Forall normalized WeekendStyleType
  ∧ Forall normalized HumorStyleType.
Proof. repeat split; apply (bool_decide_unpack _); by vm_compute. Qed.

(** C7, as the source has it: for every document that validates,
    trimming and lowercasing every field that is checked against a set of
    tokens (the enumerations of strings, [favorite_subject], and every
    element of [sports], [music_genres] and [hobbies]) gives a document
    that validates to the same record.  [alias] and [hometown] are not
    among these fields. *)
Theorem validate_normalize_tokens raw r :
  new raw = Return r → new (normalize_tokens raw) = Return r.
Proof.
  intros Hr. pose proof Hr as Hv. apply new_Return in Hv.
  document_inv Hr. apply new_Return.
  destruct literals_normalized as (Hcs & Hws & Hhs).
  unfold normalize_tokens, token_fields, normalize_field.
  cbn [foldl fst snd]. unfold CannizzaroStudent_validate.
  repeat (rewrite field_alter_eq || rewrite field_alter_ne by done).
  unfold field at 1 2 3 4 5. rewrite L1, L2, L3, L4, L5.
  cbn [model in_group Val.at_loc].
  unfold Demographics_validate, Academics_validate, Behavioral_validate,
    Activities_validate, DigitalMetrics_validate.
  repeat (rewrite field_alter_eq || rewrite field_alter_ne by done).
  rewrite (field_normalized "class_section" _ _ _ (fun v => Literal_str_normalized _ v _ Hcs) F14).
  rewrite (field_normalized "favorite_subject"
             (fun v => field_validator validate_subject (str_validator v))
             _ _ (fun v => subject_normalized v _) F22).
  rewrite (field_normalized "weekend_style" _ _ _ (fun v => Literal_str_normalized _ v _ Hws) F32).
  rewrite (field_normalized "humor_style" _ _ _ (fun v => Literal_str_normalized _ v _ Hhs) F34).
  rewrite (field_normalized "sports"
             (fun v => field_validator validate_sports (Field_list_str 1 v)) _ _
             (fun v => list_normalized _ v _ validate_sports_normalizeList) F41).
  rewrite (field_normalized "music_genres"
             (fun v => field_validator validate_genres (Field_list_str 1 v)) _ _
             (fun v => list_normalized _ v _ validate_genres_normalizeList) F42).
  rewrite (field_normalized "hobbies"
             (fun v => field_validator validate_hobbies (Field_list_str 1 v)) _ _
             (fun v => list_normalized _ v _ validate_hobbies_normalizeList) F43).
  rewrite F11, F12, F13, F15, F21, F31, F33, F51, F52.
  by destruct r as [[] [] [] [] []].
Qed.

(** ** Further properties of the models *)

(** Membership in the table of list fields, by cases. *)
Ltac list_field_cases Hf :=
  unfold list_fields in Hf; rewrite !elem_of_cons in Hf;
  destruct Hf as [Hf|[Hf|[Hf|Hf]]]; [..|by apply elem_of_nil in Hf];
  injection Hf as -> -> ->.

(** Comparisons of the keys of the source are settled by computation. *)
Ltac decide_keys :=
  repeat first [ rewrite decide_True by done | rewrite decide_False by done ].

(** X1: an empty list for [sports], [music_genres] or [hobbies] is refused
    with one error, TooShort, at the field's path: [min_length=1]. *)
Theorem empty_list_too_short raw d f vocabulary message :
  (f, vocabulary, message) ∈ list_fields →
  raw !! "activities" = Some (PDict d) →
  d !! f = Some (PList []) →
  new raw = Raise (ValidationError (reported raw))
  ∧ errors_at [Key "activities"; Key f] (reported raw)
    = [ErrorDetails [Key "activities"; Key f] (too_short 1)]
  ∧ kind_of (ErrorDetails [Key "activities"; Key f] (too_short 1)) = TooShort.
Proof.
  intros Hf Hd Hl.
  assert (errors_at [Key "activities"; Key f] (reported raw)
          = [ErrorDetails [Key "activities"; Key f] (too_short 1)]) as Herr.
  { rewrite reported_groups, !errors_at_app, !errors_at_field. decide_keys.
    rewrite Hd. cbn [model]. errors_of_fields.
    list_field_cases Hf; decide_keys; rewrite Hl; reflexivity. }
  split; [|split; [exact Herr|reflexivity]].
  apply new_reported. intros Hnil. by rewrite Hnil in Herr.
Qed.

Lemma first_invalid_no_offending vocabulary l :
  offending vocabulary l = [] →
  first_invalid vocabulary (map (fun s => PyStr.strip (PyStr.lower s)) l) = None.
Proof. unfold offending. intros H. by rewrite first_invalid_filter, H. Qed.

(** X2: in a valid document, a list field takes every non-empty list of
    strings whose normalized elements are all in its vocabulary, and the
    record holds the normalized elements in the same order, duplicates
    kept. *)
Theorem list_field_keeps_order_and_duplicates raw r f vocabulary message l :
  new raw = Return r →
  (f, vocabulary, message) ∈ list_fields →
  l ≠ [] →
  offending vocabulary l = [] →
  ∃ r', new (set_field "activities" f (PList (PStr <$> l)) raw) = Return r'
        ∧ model_dump r'
          = set_field "activities" f (PList (PStr <$> map lower_strip l))
              (model_dump r).
Proof.
  intros Hr Hf Hne Hoff. document_inv Hr.
  pose proof (first_invalid_no_offending _ _ Hoff) as Hfirst.
  assert ((length l <? 1) = false) as Hlen by (by destruct l).
  list_field_cases Hf;
    (eexists; split;
     [ apply new_Return; replaced_field; rewrite (list_field_str_list l Hlen);
       unfold field_validator, validate_sports, validate_genres, validate_hobbies;
       cbn [Val.bind]; rewrite Hfirst; reflexivity
     | reflexivity ]).
Qed.

Lemma items_non_str i l :
  non_str_indices i l ≠ [] →
  items str_validator i l
  = Invalid ((fun j => ErrorDetails [Idx j] string_type) <$> non_str_indices i l).
Proof.
  revert i. induction l as [|v l IH]; intros i; cbn [non_str_indices items]; [done|].
  destruct (decide (non_str_indices (S i) l = [])) as [Hnil|Hne].
  - assert (∃ out, items str_validator (S i) l = Valid out) as [out Hout].
    { clear IH. revert i Hnil. induction l as [|w l IHl]; intros i; cbn; [eauto|].
      destruct w; cbn; try done. intros Hnil.
      destruct (IHl (S i) Hnil) as [out ->]. eauto. }
    rewrite Hout, Hnil. destruct v; cbn; done.
  - rewrite (IH (S i) Hne). destruct v; cbn; done.
Qed.

Lemma under_indices k1 k2 (ns : list nat) :
  List.map (Val.under (Key k1))
    (List.map (Val.under (Key k2))
       ((fun j => ErrorDetails [Idx j] string_type) <$> ns))
  = (fun i => ErrorDetails [Key k1; Key k2; Idx i] string_type) <$> ns.
Proof. induction ns as [|n ns IH]; cbn; [done|]. by f_equal. Qed.

(** X3: when a list field holds a list with items that are no strings, the
    errors of the field are one TypeMismatch for each such item, at the
    item's index, and the field validator does not run: no vocabulary
    error is reported, whatever the strings of the list are. *)
Theorem list_items_must_be_str raw d f vocabulary message l :
  (f, vocabulary, message) ∈ list_fields →
  raw !! "activities" = Some (PDict d) →
  d !! f = Some (PList l) →
  non_str_indices 0 l ≠ [] →
  errors_at [Key "activities"; Key f] (reported raw)
  = (fun i => ErrorDetails [Key "activities"; Key f; Idx i] string_type)
      <$> non_str_indices 0 l.
Proof.
  intros Hf Hd Hl Hne.
  rewrite reported_groups, !errors_at_app, !errors_at_field. decide_keys.
  rewrite Hd. cbn [model]. errors_of_fields.
  list_field_cases Hf;
    decide_keys; rewrite Hl; cbn [Field_list_str];
    rewrite (items_non_str 0 l Hne); cbn [Val.bind field_validator Val.errors];
    rewrite errors_at_nil, ?app_nil_r; cbn [app];
    apply under_indices.
Qed.

(** X4: in a valid document, [favorite_subject] takes a string exactly
    when its lowercased and stripped form is a subject, and the record
    holds that form; any other string is refused with one error whose
    message lists the subjects and does not depend on the string. *)
Theorem favorite_subject_normalized raw r s :
  new raw = Return r →
  (lower_strip s ∈ VALID_SUBJECTS →
   ∃ r', new (set_field "academics" "favorite_subject" (PStr s) raw) = Return r'
         ∧ model_dump r'
           = set_field "academics" "favorite_subject" (PStr (lower_strip s))
               (model_dump r))
  ∧ (lower_strip s ∉ VALID_SUBJECTS →
     new (set_field "academics" "favorite_subject" (PStr s) raw)
     = Raise (ValidationError
                [ErrorDetails [Key "academics"; Key "favorite_subject"]
                   (value_error ("favorite_subject must be one of "
                                 ++ PyStr.repr_list VALID_SUBJECTS))])).
Proof.
  intros Hr. document_inv Hr. unfold lower_strip. split; intros Hs.
  - eexists; split;
      [ apply new_Return; replaced_field;
        unfold field_validator, validate_subject;
        cbn [str_validator Val.bind]; rewrite decide_True by done; reflexivity
      | reflexivity ].
  - apply new_Raise. replaced_field.
    unfold field_validator, validate_subject. cbn [str_validator Val.bind].
    rewrite decide_False by done. reflexivity.
Qed.

(** X5: every field is required: when a group is present as a mapping
    that lacks one of its fields, one MissingField error is reported at
    that field's path. *)
Theorem absent_field_is_missing raw g f d :
  (g, f) ∈ all_fields →
  raw !! g = Some (PDict d) →
  d !! f = None →
  errors_at [Key g; Key f] (reported raw) = [ErrorDetails [Key g; Key f] missing].
Proof.
  intros Hgf Hd Hf.
  unfold all_fields in Hgf. rewrite !elem_of_cons in Hgf.
  rewrite reported_groups, !errors_at_app, !errors_at_field.
  repeat (destruct Hgf as [Hgf|Hgf];
          [ injection Hgf as -> ->; decide_keys; rewrite Hd; cbn [model];
            errors_of_fields; decide_keys; rewrite Hf; reflexivity |]).
  by apply elem_of_nil in Hgf.
Qed.

(** X6: when the value of a group key is not a mapping, one TypeMismatch
    error is reported at the group key and nothing below it. *)
Theorem group_must_be_mapping raw g v :
  g ∈ group_keys →
  raw !! g = Some v →
  (∀ d, v ≠ PDict d) →
  errors_at [Key g] (reported raw) = [ErrorDetails [Key g] model_type].
Proof.
  intros Hg Hv Hnd.
  unfold group_keys in Hg. rewrite !elem_of_cons in Hg.
  rewrite reported_groups, !errors_at_app, !errors_at_field.
  repeat (destruct Hg as [->|Hg];
          [ decide_keys; rewrite Hv;
            destruct v; try (by destruct (Hnd d)); reflexivity |]).
  by apply elem_of_nil in Hg.
Qed.

Lemma errors_at_field_self {A} name (V : pyval → val A) (d : gmap string pyval) :
  errors_at [Key name] (Val.errors (field name V d)) = Val.errors (field name V d).
Proof.
  rewrite errors_at_field, decide_True by done. unfold field.
  destruct (d !! name); [|done].
  by rewrite errors_at_nil, ValFacts.errors_at_loc.
Qed.

(** X7: the errors are reported group by group, in the order in which
    [CannizzaroStudent] declares the groups, and every error belongs to
    one group. *)
Theorem errors_in_group_order raw :
  reported raw = concat ((fun g => errors_at [Key g] (reported raw)) <$> group_keys).
Proof.
  unfold group_keys. cbn [fmap list_fmap concat].
  rewrite app_nil_r.
  rewrite reported_groups at 2 3 4 5 6. rewrite !errors_at_app.
  rewrite !errors_at_field_self.
  rewrite !errors_at_field. decide_keys.
  rewrite ?app_nil_r. cbn [app]. apply reported_groups.
Qed.

(** X8: the field validators are idempotent on what they return, and the
    list validators keep the length of the list. *)
Theorem field_validators_idempotent :
  (∀ v s, validate_subject v = inr s → validate_subject s = inr s)
  ∧ (∀ v l, validate_sports v = inr l →
            validate_sports l = inr l ∧ length l = length v)
  ∧ (∀ v l, validate_genres v = inr l →
            validate_genres l = inr l ∧ length l = length v)
  ∧ (∀ v l, validate_hobbies v = inr l →
            validate_hobbies l = inr l ∧ length l = length v).
Proof.
  split; [|split; [|split]].
  - intros v s H. pose proof (validate_subject_inr _ _ H) as (Hs & _ & _).
    rewrite Hs at 1.
    by rewrite <- normalizeScalar_eq, validate_subject_normalizeScalar.
  - intros v l H. pose proof (validate_sports_inr _ _ H) as (-> & _ & _).
    split; [|apply length_map].
    rewrite <- H. rewrite <- (validate_sports_normalizeList v).
    unfold normalizeList. f_equal. apply map_ext. intros s.
    symmetry. apply normalizeScalar_eq.
  - intros v l H. pose proof (validate_genres_inr _ _ H) as (-> & _ & _).
    split; [|apply length_map].
    rewrite <- H. rewrite <- (validate_genres_normalizeList v).
    unfold normalizeList. f_equal. apply map_ext. intros s.
    symmetry. apply normalizeScalar_eq.
  - intros v l H. pose proof (validate_hobbies_inr _ _ H) as (-> & _ & _).
    split; [|apply length_map].
    rewrite <- H. rewrite <- (validate_hobbies_normalizeList v).
    unfold normalizeList. f_equal. apply map_ext. intros s.
    symmetry. apply normalizeScalar_eq.
Qed.

(** X9: an integer field takes every integer within its declared bounds
    and refuses every integer outside them with OutOfRange at the field's
    path. *)
Theorem int_fields_whole_range raw r g f lo hi n :
  new raw = Return r →
  (g, f, lo, hi) ∈ int_fields →
  ((lo ≤ n ≤ hi)%Z → passes str_as_int raw r g f (PInt n))
  ∧ ((n < lo ∨ hi < n)%Z → fails str_as_int raw g f (PInt n) OutOfRange).
Proof. apply int_field_range. Qed.

Lemma first_invalid_members vocabulary l :
  Forall (fun x => x ∈ vocabulary) l → first_invalid vocabulary l = None.
Proof.
  induction 1 as [|x l Hx _ IH]; cbn [first_invalid]; [done|].
  by rewrite decide_True.
Qed.

Lemma map_normalized (l : list string) :
  Forall normalized l → map (fun s => PyStr.strip (PyStr.lower s)) l = l.
Proof.
  induction 1 as [|x l Hx _ IH]; cbn [map]; [done|]. by rewrite Hx, IH.
Qed.

Lemma vocabulary_list_elim vocabulary l :
  vocabulary_list vocabulary l →
  (length l <? 1) = false
  ∧ first_invalid vocabulary (map (fun s => PyStr.strip (PyStr.lower s)) l) = None
  ∧ map (fun s => PyStr.strip (PyStr.lower s)) l = l.
Proof.
  intros [Hne Hall].
  assert (Forall normalized l) as Hn by (eapply Forall_impl; [exact Hall|]; by intros ? []).
  assert (Forall (fun x => x ∈ vocabulary) l) as Hm
    by (eapply Forall_impl; [exact Hall|]; by intros ? []).
  split; [by destruct l|].
  rewrite (map_normalized l Hn). split; [by apply first_invalid_members|done].
Qed.

(** X10: a record that meets the declared constraints validates back from
    its own dump to itself, also when the dump has gained a key outside
    the five groups (such as the [_id] of the document store). *)
Theorem dump_validates_back r k v :
  CannizzaroStudent_ok r →
  k ∉ group_keys →
  new (model_dump r) = Return r
  ∧ new (<[k := v]> (model_dump r)) = Return r.
Proof.
  intros Hok Hk.
  assert (validate (model_dump r) = Valid r) as Hv.
  { destruct r as [[a1 a2 a3 a4 a5] [b1 b2] [c1 c2 c3 c4] [e1 e2 e3] [f1 f2]].
    destruct Hok as ((Ha1 & Ha2 & Ha3 & Ha4 & Ha5) & (Hb1 & Hb2 & Hb3)
                     & (Hc1 & Hc2 & Hc3 & Hc4) & (He1 & He2 & He3) & (Hf1 & Hf2)).
    cbn [alias siblings commute_time_min class_section hometown academic_interest
         favorite_subject social_style weekend_style best_work_time humor_style
         sports music_genres hobbies avg_screen_time_min phone_pickups_daily
         demographics academics behavioral activities digital_metrics] in *.
    apply vocabulary_list_elim in He1 as (Le1 & Fe1 & Me1).
    apply vocabulary_list_elim in He2 as (Le2 & Fe2 & Me2).
    apply vocabulary_list_elim in He3 as (Le3 & Fe3 & Me3).
    apply (validate_Valid (model_dump _)
             (list_to_map
                [("alias", PStr a1); ("siblings", PInt a2);
                 ("commute_time_min", PInt a3); ("class_section", PStr a4);
                 ("hometown", PStr a5)])
             (list_to_map
                [("academic_interest", PInt b1); ("favorite_subject", PStr b2)])
             (list_to_map
                [("social_style", PInt c1); ("weekend_style", PStr c2);
                 ("best_work_time", PInt c3); ("humor_style", PStr c4)])
             (list_to_map
                [("sports", PList (PStr <$> e1));
                 ("music_genres", PList (PStr <$> e2));
                 ("hobbies", PList (PStr <$> e3))])
             (list_to_map
                [("avg_screen_time_min", PInt f1); ("phone_pickups_daily", PInt f2)]));
      try reflexivity.
    - unfold Demographics_validate, field. cbn [Val.at_loc].
      change (list_to_map _ !! "alias") with (Some (PStr a1)).
      change (list_to_map _ !! "siblings") with (Some (PInt a2)).
      change (list_to_map _ !! "commute_time_min") with (Some (PInt a3)).
      change (list_to_map _ !! "class_section") with (Some (PStr a4)).
      change (list_to_map _ !! "hometown") with (Some (PStr a5)).
      cbn [Field_str Field_int str_validator int_validator Literal_str Val.bind].
      rewrite !str_bounds_in by done.
      rewrite !int_bounds_in by (intros ? [= <-]; lia).
      rewrite decide_True by done. reflexivity.
    - unfold Academics_validate, field. cbn [Val.at_loc].
      change (list_to_map _ !! "academic_interest") with (Some (PInt b1)).
      change (list_to_map _ !! "favorite_subject") with (Some (PStr b2)).
      cbn [Field_int str_validator int_validator Val.bind].
      rewrite !int_bounds_in by (intros ? [= <-]; lia).
      unfold field_validator, validate_subject. cbn [Val.bind].
      rewrite Hb3. rewrite decide_True by done. reflexivity.
    - unfold Behavioral_validate, field. cbn [Val.at_loc].
      change (list_to_map _ !! "social_style") with (Some (PInt c1)).
      change (list_to_map _ !! "weekend_style") with (Some (PStr c2)).
      change (list_to_map _ !! "best_work_time") with (Some (PInt c3)).
      change (list_to_map _ !! "humor_style") with (Some (PStr c4)).
      cbn [Field_int int_validator Literal_str Literal_int Val.bind].
      rewrite !int_bounds_in by (intros ? [= <-]; lia).
      rewrite (BestWorkTimeType_i64 c3 Hc3).
      rewrite !decide_True by done. reflexivity.
    - unfold Activities_validate, field. cbn [Val.at_loc].
      change (list_to_map _ !! "sports") with (Some (PList (PStr <$> e1))).
      change (list_to_map _ !! "music_genres") with (Some (PList (PStr <$> e2))).
      change (list_to_map _ !! "hobbies") with (Some (PList (PStr <$> e3))).
      cbn beta iota. rewrite !list_field_str_list by done.
      unfold field_validator, validate_sports, validate_genres, validate_hobbies.
      cbn [Val.bind]. rewrite Fe1, Fe2, Fe3, Me1, Me2, Me3. reflexivity.
    - unfold DigitalMetrics_validate, field. cbn [Val.at_loc].
      change (list_to_map _ !! "avg_screen_time_min") with (Some (PInt f1)).
      change (list_to_map _ !! "phone_pickups_daily") with (Some (PInt f2)).
      cbn [Field_int int_validator Val.bind].
      rewrite !int_bounds_in by (intros ? [= <-]; lia). reflexivity. }
  split; apply new_Return; [done|]. by rewrite validate_insert_unknown.
Qed.

(** Keys that are no field of a group do not matter to the group. *)
Ltac group_ignores_key :=
  intros; rewrite !not_elem_of_cons in *;
  repeat match goal with H : _ ∧ _ |- _ => destruct H end;
  unfold Demographics_validate, Academics_validate, Behavioral_validate,
    Activities_validate, DigitalMetrics_validate;
  by rewrite !field_insert_ne.

Lemma Demographics_insert_unknown d k v :
  k ∉ ["alias"; "siblings"; "commute_time_min"; "class_section"; "hometown"] →
  Demographics_validate str_as_int (<[k := v]> d) = Demographics_validate str_as_int d.
Proof. group_ignores_key. Qed.

Lemma Academics_insert_unknown d k v :
  k ∉ ["academic_interest"; "favorite_subject"] →
  Academics_validate str_as_int (<[k := v]> d) = Academics_validate str_as_int d.
Proof. group_ignores_key. Qed.

Lemma Behavioral_insert_unknown d k v :
  k ∉ ["social_style"; "weekend_style"; "best_work_time"; "humor_style"] →
  Behavioral_validate str_as_int (<[k := v]> d) = Behavioral_validate str_as_int d.
Proof. group_ignores_key. Qed.

Lemma Activities_insert_unknown d k v :
  k ∉ ["sports"; "music_genres"; "hobbies"] →
  Activities_validate (<[k := v]> d) = Activities_validate d.
Proof. group_ignores_key. Qed.

Lemma DigitalMetrics_insert_unknown d k v :
  k ∉ ["avg_screen_time_min"; "phone_pickups_daily"] →
  DigitalMetrics_validate str_as_int (<[k := v]> d)
  = DigitalMetrics_validate str_as_int d.
Proof. group_ignores_key. Qed.

Lemma group_set_field {A} name (V : gmap string pyval → val A) g k v raw :
  (g = name → ∀ d, V (<[k := v]> d) = V d) →
  field name (model V) (set_field g k v raw) = field name (model V) raw.
Proof.
  intros HV. unfold set_field. destruct (decide (g = name)) as [->|Hne].
  - rewrite field_alter_eq. unfold field. destruct (raw !! name) as [x|]; [|done].
    rewrite model_in_group. destruct x; cbn [model]; try done. by rewrite HV.
  - by rewrite field_alter_ne.
Qed.

(** X11: a key inside a group that is no field of the group is discarded
    like an unknown top-level key: setting it changes nothing, whether the
    document validates or not. *)
Theorem unknown_nested_key_discarded raw g k v :
  (g, k) ∉ all_fields →
  new (set_field g k v raw) = new raw.
Proof.
  intros Hgk. unfold all_fields in Hgk. rewrite !not_elem_of_cons in Hgk.
  destruct Hgk as (H1&H2&H3&H4&H5&H6&H7&H8&H9&H10&H11&H12&H13&H14&H15&H16&_).
  unfold CannizzaroStudent_new, CannizzaroStudent_validate.
  rewrite !group_set_field; [done|..]; intros -> d.
  - apply DigitalMetrics_insert_unknown. rewrite !not_elem_of_cons.
    repeat split; try (intros ->; done). apply not_elem_of_nil.
  - apply Activities_insert_unknown. rewrite !not_elem_of_cons.
    repeat split; try (intros ->; done). apply not_elem_of_nil.
  - apply Behavioral_insert_unknown. rewrite !not_elem_of_cons.
    repeat split; try (intros ->; done). apply not_elem_of_nil.
  - apply Academics_insert_unknown. rewrite !not_elem_of_cons.
    repeat split; try (intros ->; done). apply not_elem_of_nil.
  - apply Demographics_insert_unknown. rewrite !not_elem_of_cons.
    repeat split; try (intros ->; done). apply not_elem_of_nil.
Qed.

(** A changed document is refused with one error of type [t] at the
    path of the changed field. *)
Ltac refused_with t tac :=
  match goal with
  | |- fails _ _ ?g ?f _ _ =>
      exists (ErrorDetails [Key g; Key f] t);
      split; [apply new_Raise; replaced_field; tac | by split]
  end.

(** X12: the fields declared [str] take only strings: in a valid
    document, any value of [alias], [hometown] or [favorite_subject] that
    is no string is refused with one TypeMismatch at the field's path;
    numbers are not turned into strings. *)
Theorem str_fields_take_only_str raw r g f v :
  new raw = Return r →
  (g, f) ∈ str_fields →
  is_str v = false →
  fails str_as_int raw g f v TypeMismatch.
Proof.
  intros Hr Hf Hv. document_inv Hr.
  unfold str_fields in Hf. rewrite !elem_of_cons in Hf.
  destruct Hf as [Hf|[Hf|[Hf|Hf]]]; [..|by apply elem_of_nil in Hf];
    injection Hf as -> ->;
    refused_with string_type ltac:(destruct v; try discriminate Hv; reflexivity).
Qed.

(** X13: the enumeration fields do not read their input as the integer
    fields do, they look it up among the literals.  In a valid document, a
    value of a string enumeration that is no string is refused with one
    InvalidEnum at the field's path.  A value of [best_work_time] that is
    no [int] is taken exactly when it is equal to one of the literals, as
    [True] and [1.0] are equal to [1], and the record then holds the
    literal; any other value that is no [int] (the string "1", [None],
    [False], [2.5], a list) is refused with one InvalidEnum at the
    field's path. *)
Theorem enums_take_only_literals raw r g f literals v :
  new raw = Return r →
  (g, f, literals) ∈ str_enum_fields →
  (is_str v = false → fails str_as_int raw g f v InvalidEnum)
  ∧ (∀ n, is_int v = false → equal_int v = Some n → n ∈ BestWorkTimeType →
       ∃ r', new (set_field "behavioral" "best_work_time" v raw) = Return r'
             ∧ model_dump r'
               = set_field "behavioral" "best_work_time" (PInt n) (model_dump r))
  ∧ (is_int v = false →
     (∀ n, equal_int v = Some n → n ∉ BestWorkTimeType) →
     fails str_as_int raw "behavioral" "best_work_time" v InvalidEnum).
Proof.
  intros Hr Hf. document_inv Hr. split; [|split].
  - intros Hv. unfold str_enum_fields in Hf. rewrite !elem_of_cons in Hf.
    destruct Hf as [Hf|[Hf|[Hf|Hf]]]; [..|by apply elem_of_nil in Hf];
      injection Hf as -> -> ->;
      refused_with literal_error ltac:(destruct v; try discriminate Hv; reflexivity).
  - intros n Hv Hn Hin.
    assert (Literal_int BestWorkTimeType v = Valid n) as HL.
    { destruct v; try discriminate Hv; unfold Literal_int; rewrite Hn;
        by rewrite decide_True. }
    eexists; split;
      [ apply new_Return; replaced_field; rewrite HL; reflexivity
      | reflexivity ].
  - intros Hv Hn.
    refused_with literal_error
      ltac:(destruct v; try discriminate Hv; unfold Literal_int;
            destruct (equal_int _) as [z|] eqn:E; try reflexivity;
            rewrite decide_False by (by apply Hn); reflexivity).
Qed.

(** X14: no field is optional: in a valid document, [None] in place of
    the value of any integer field, and a list or a mapping in its place,
    is refused with one TypeMismatch at the field's path. *)
Theorem int_fields_reject_none_and_containers raw r g f lo hi v :
  new raw = Return r →
  (g, f, lo, hi) ∈ int_fields →
  v = PNone ∨ (∃ l, v = PList l) ∨ (∃ d, v = PDict d) →
  fails str_as_int raw g f v TypeMismatch.
Proof.
  intros Hr Hf Hv. document_inv Hr.
  unfold int_fields in Hf. rewrite !elem_of_cons in Hf.
  destruct Hf as [Hf|[Hf|[Hf|[Hf|[Hf|[Hf|Hf]]]]]];
    [..|by apply elem_of_nil in Hf]; injection Hf as -> -> -> ->;
    refused_with int_type ltac:(destruct Hv as [->|[[l ->]|[d ->]]]; reflexivity).
Qed.

End Properties.

(** ** The claims on the sample documents *)

Lemma unknown_key_discarded_witness :
  CannizzaroStudent_new Decimal.str_as_int Sample.with_id = Return Sample.record
  ∧ dom (model_dump Sample.record) = list_to_set group_keys
  ∧ model_dump Sample.record !! "_id" = None.
Proof.
  apply (unknown_key_discarded Decimal.str_as_int Sample.student Sample.record
           "_id" (PStr "abc123")).
  - reflexivity.
  - apply (bool_decide_unpack _). vm_compute. exact I.
Defined.

Lemma absent_group_is_one_missing_error_witness :
  ∃ e, errors_at [Key "activities"]
         (reported Decimal.str_as_int Sample.without_activities) = [e]
       ∧ loc e = [Key "activities"] ∧ kind_of e = MissingField.
Proof.
  apply (absent_group_is_one_missing_error Decimal.str_as_int
           Sample.without_activities "activities").
  - apply (bool_decide_unpack _). vm_compute. exact I.
  - reflexivity.
Defined.

(** C3 as stated fails: without the [activities] group, one error is
    reported for the group, not one for each of its three fields. *)
Lemma absent_activities_not_three_errors :
  CannizzaroStudent_new Decimal.str_as_int Sample.without_activities
  = Raise (ValidationError [ErrorDetails [Key "activities"] missing])
  ∧ errors_at [Key "activities"] (reported Decimal.str_as_int Sample.without_activities)
    ≠ [ErrorDetails [Key "activities"; Key "sports"] missing;
       ErrorDetails [Key "activities"; Key "music_genres"] missing;
       ErrorDetails [Key "activities"; Key "hobbies"] missing].
Proof. split; [reflexivity | by vm_compute]. Qed.

Lemma vocabulary_error_names_first_offender_witness :
  CannizzaroStudent_new Decimal.str_as_int Sample.two_unknown_sports
  = Raise (ValidationError (reported Decimal.str_as_int Sample.two_unknown_sports))
  ∧ errors_at [Key "activities"; Key "sports"]
      (reported Decimal.str_as_int Sample.two_unknown_sports)
    = [ErrorDetails [Key "activities"; Key "sports"]
         (value_error (invalid_sport "football"))]
  ∧ kind_of (ErrorDetails [Key "activities"; Key "sports"]
               (value_error (invalid_sport "football")))
    = InvalidVocabularyMember.
Proof.
  apply (vocabulary_error_names_first_offender Decimal.str_as_int
           Sample.two_unknown_sports
           (<["sports" := PList [PStr "soccer"; PStr "Football"; PStr "cricket"]]>
              (list_to_map Sample.activities))
           "sports" VALID_SPORTS invalid_sport
           ["soccer"; "Football"; "cricket"] "football" ["cricket"]).
  - unfold list_fields. constructor.
  - reflexivity.
  - reflexivity.
  - reflexivity.
Defined.

(** C1 as stated fails: of two offending sports, the message of the one
    error names the first and says nothing of the second. *)
Lemma vocabulary_error_omits_later_offenders :
  offending VALID_SPORTS ["soccer"; "Football"; "cricket"] = ["football"; "cricket"]
  ∧ reported Decimal.str_as_int Sample.two_unknown_sports
    = [ErrorDetails [Key "activities"; Key "sports"]
         (value_error (invalid_sport "football"))]
  ∧ PyStr.contains (invalid_sport "football") "football" = true
  ∧ PyStr.contains (invalid_sport "football") "cricket" = false.
Proof. repeat split; reflexivity. Qed.

Lemma int_bounds_inclusive_witness :
  passes Decimal.str_as_int Sample.student Sample.record
    "demographics" "commute_time_min" (PInt 1)
  ∧ passes Decimal.str_as_int Sample.student Sample.record
      "demographics" "commute_time_min" (PInt 180)
  ∧ fails Decimal.str_as_int Sample.student
      "demographics" "commute_time_min" (PInt (1 - 1)) OutOfRange
  ∧ fails Decimal.str_as_int Sample.student
      "demographics" "commute_time_min" (PInt (180 + 1)) OutOfRange.
Proof.
  apply (int_bounds_inclusive Decimal.str_as_int Sample.student Sample.record
           "demographics" "commute_time_min" 1 180).
  - reflexivity.
  - apply (bool_decide_unpack _). vm_compute. exact I.
Defined.

Lemma string_enums_exact_witness :
  passes Decimal.str_as_int Sample.student Sample.record
    "demographics" "class_section" (PStr "b")
  ∧ fails Decimal.str_as_int Sample.student
      "behavioral" "humor_style" (PStr "Dry") InvalidEnum
  ∧ passes Decimal.str_as_int Sample.student Sample.record
      "behavioral" "best_work_time" (PInt 4)
  ∧ fails Decimal.str_as_int Sample.student
      "behavioral" "best_work_time" (PInt 5) InvalidEnum
  ∧ CannizzaroStudent_new Decimal.str_as_int
      (set_field "behavioral" "best_work_time" (PInt (2 ^ 63)) Sample.student)
    = Raise (ValidationError
               [ErrorDetails [Key "behavioral"; Key "best_work_time"]
                  int_parsing_size]).
Proof.
  assert (("demographics", "class_section", ClassSectionType) ∈ str_enum_fields)
    as Hcs by (apply (bool_decide_unpack _); vm_compute; exact I).
  assert (("behavioral", "humor_style", HumorStyleType) ∈ str_enum_fields)
    as Hhs by (apply (bool_decide_unpack _); vm_compute; exact I).
  split; [|split; [|split; [|split]]].
  - apply (string_enums_exact Decimal.str_as_int Sample.student Sample.record
             "demographics" "class_section" ClassSectionType "b" 4 eq_refl Hcs).
    apply (bool_decide_unpack _). vm_compute. exact I.
  - apply (string_enums_exact Decimal.str_as_int Sample.student Sample.record
             "behavioral" "humor_style" HumorStyleType "Dry" 4 eq_refl Hhs).
    apply (bool_decide_unpack _). vm_compute. exact I.
  - apply (string_enums_exact Decimal.str_as_int Sample.student Sample.record
             "behavioral" "humor_style" HumorStyleType "dry" 4 eq_refl Hhs).
    apply (bool_decide_unpack _). vm_compute. exact I.
  - apply (string_enums_exact Decimal.str_as_int Sample.student Sample.record
             "behavioral" "humor_style" HumorStyleType "dry" 5 eq_refl Hhs).
    + apply (bool_decide_unpack _). vm_compute. exact I.
    + lia.
  - apply (string_enums_exact Decimal.str_as_int Sample.student Sample.record
             "behavioral" "humor_style" HumorStyleType "dry" (2 ^ 63) eq_refl Hhs).
    lia.
Defined.

(** C6 as stated fails: an upper-case class section is not lowercased and
    accepted, it is refused. *)
Lemma class_section_uppercase_rejected :
  normalizeScalar "A" = "a"
  ∧ CannizzaroStudent_new Decimal.str_as_int Sample.upper_section
    = Raise (ValidationError
               [ErrorDetails [Key "demographics"; Key "class_section"] literal_error])
  ∧ CannizzaroStudent_new Decimal.str_as_int
      (set_field "behavioral" "weekend_style" (PStr " chill ") Sample.student)
    = Raise (ValidationError
               [ErrorDetails [Key "behavioral"; Key "weekend_style"] literal_error]).
Proof. repeat split; reflexivity. Qed.

Lemma alias_hometown_raw_length_witness :
  passes Decimal.str_as_int Sample.student Sample.record
    "demographics" "alias" (PStr " a ")
  ∧ fails Decimal.str_as_int Sample.student
      "demographics" "hometown" (PStr " ") TooShort.
Proof.
  split.
  - apply (alias_hometown_raw_length Decimal.str_as_int
             Sample.student Sample.record " a ").
    + reflexivity.
    + simpl. lia.
  - apply (alias_hometown_raw_length Decimal.str_as_int
             Sample.student Sample.record " ").
    + reflexivity.
    + simpl. lia.
Defined.

Lemma constructed_record_ok_witness : CannizzaroStudent_ok Sample.record.
Proof.
  apply (constructed_record_ok Decimal.str_as_int Sample.student Sample.record).
  reflexivity.
Defined.

(** C9 as stated fails: a record can be changed after its construction,
    and what is assigned is not validated.  On the record of the sample
    document, [siblings = -1], [sports = []] and
    [favorite_subject = "Math"] each leave a record that violates a
    declared constraint. *)
Lemma assignment_is_not_validated :
  CannizzaroStudent_new Decimal.str_as_int Sample.student = Return Sample.record
  ∧ siblings (demographics (assign_siblings (-1) Sample.record)) = (-1)%Z
  ∧ ¬ CannizzaroStudent_ok (assign_siblings (-1) Sample.record)
  ∧ sports (activities (assign_sports [] Sample.record)) = []
  ∧ ¬ CannizzaroStudent_ok (assign_sports [] Sample.record)
  ∧ favorite_subject (academics (assign_favorite_subject "Math" Sample.record))
    = "Math"
  ∧ ¬ CannizzaroStudent_ok (assign_favorite_subject "Math" Sample.record).
Proof.
  split; [reflexivity|].
  split; [reflexivity|]. split.
  { intros ((_ & [H _] & _) & _). cbn in H. lia. }
  split; [reflexivity|]. split.
  { intros (_ & _ & _ & ([H _] & _) & _). by apply H. }
  split; [reflexivity|].
  intros (_ & (_ & _ & H) & _). discriminate H.
Qed.

Lemma validate_normalize_tokens_witness :
  CannizzaroStudent_new Decimal.str_as_int (normalize_tokens Sample.student)
  = Return Sample.record.
Proof.
  apply (validate_normalize_tokens Decimal.str_as_int Sample.student Sample.record).
  reflexivity.
Defined.

(** C7 as stated fails: normalizing every string field lowercases [alias]
    and [hometown] too, which validation keeps as submitted, so the two
    records differ. *)
Lemma normalize_changes_alias :
  CannizzaroStudent_new Decimal.str_as_int Sample.student = Return Sample.record
  ∧ CannizzaroStudent_new Decimal.str_as_int (normalize Sample.student)
    = Return (mkCannizzaroStudent
                (mkDemographics "bob" 2 25 "a" "catania")
                (academics Sample.record) (behavioral Sample.record)
                (activities Sample.record) (digital_metrics Sample.record))
  ∧ CannizzaroStudent_new Decimal.str_as_int (normalize Sample.student)
    ≠ CannizzaroStudent_new Decimal.str_as_int Sample.student.
Proof. split; [reflexivity|split; [reflexivity|by vm_compute]]. Qed.

(** C2 as stated fails: on a document with two unknown sports,
    construction does not return, it raises; and the error list it
    carries has one entry for the field, which names the first unknown
    sport only. *)
Lemma construction_raises :
  is_returned (CannizzaroStudent_new Decimal.str_as_int Sample.two_unknown_sports)
  = false
  ∧ CannizzaroStudent_new Decimal.str_as_int Sample.two_unknown_sports
    = Raise (ValidationError
               [ErrorDetails [Key "activities"; Key "sports"]
                  (value_error (invalid_sport "football"))])
  ∧ PyStr.contains (invalid_sport "football") "cricket" = false.
Proof. repeat split; reflexivity. Qed.

(** ** The further properties on the sample documents *)

Lemma empty_list_too_short_witness :
  CannizzaroStudent_new Decimal.str_as_int Sample.empty_sports
  = Raise (ValidationError (reported Decimal.str_as_int Sample.empty_sports))
  ∧ errors_at [Key "activities"; Key "sports"]
      (reported Decimal.str_as_int Sample.empty_sports)
    = [ErrorDetails [Key "activities"; Key "sports"] (too_short 1)]
  ∧ kind_of (ErrorDetails [Key "activities"; Key "sports"] (too_short 1)) = TooShort.
Proof.
  apply (empty_list_too_short Decimal.str_as_int Sample.empty_sports
           (<["sports" := PList []]> (list_to_map Sample.activities))
           "sports" VALID_SPORTS invalid_sport).
  - unfold list_fields. constructor.
  - reflexivity.
  - reflexivity.
Defined.

Lemma list_field_keeps_order_and_duplicates_witness :
  ∃ r', CannizzaroStudent_new Decimal.str_as_int
          (set_field "activities" "hobbies"
             (PList (PStr <$> ["Reading"; " art"; "reading"])) Sample.student)
        = Return r'
        ∧ model_dump r'
          = set_field "activities" "hobbies"
              (PList (PStr <$> map lower_strip ["Reading"; " art"; "reading"]))
              (model_dump Sample.record).
Proof.
  apply (list_field_keeps_order_and_duplicates Decimal.str_as_int
           Sample.student Sample.record "hobbies" VALID_HOBBIES invalid_hobby
           ["Reading"; " art"; "reading"]).
  - reflexivity.
  - unfold list_fields. do 2 constructor. constructor.
  - discriminate.
  - reflexivity.
Defined.

Lemma list_items_must_be_str_witness :
  errors_at [Key "activities"; Key "sports"]
    (reported Decimal.str_as_int Sample.mixed_sports)
  = (fun i => ErrorDetails [Key "activities"; Key "sports"; Idx i] string_type)
      <$> non_str_indices 0 [PStr "Football"; PInt 3; PStr "soccer"; PNone].
Proof.
  apply (list_items_must_be_str Decimal.str_as_int Sample.mixed_sports
           (<["sports" := PList [PStr "Football"; PInt 3; PStr "soccer"; PNone]]>
              (list_to_map Sample.activities))
           "sports" VALID_SPORTS invalid_sport).
  - unfold list_fields. constructor.
  - reflexivity.
  - reflexivity.
  - discriminate.
Defined.

Lemma favorite_subject_normalized_witness :
  ∃ r', CannizzaroStudent_new Decimal.str_as_int
          (set_field "academics" "favorite_subject" (PStr " Physics ") Sample.student)
        = Return r'
        ∧ model_dump r'
          = set_field "academics" "favorite_subject" (PStr (lower_strip " Physics "))
              (model_dump Sample.record).
Proof.
  apply (favorite_subject_normalized Decimal.str_as_int
           Sample.student Sample.record " Physics ").
  - reflexivity.
  - apply (bool_decide_unpack _). vm_compute. exact I.
Defined.

Lemma absent_field_is_missing_witness :
  errors_at [Key "activities"; Key "hobbies"]
    (reported Decimal.str_as_int Sample.without_hobbies)
  = [ErrorDetails [Key "activities"; Key "hobbies"] missing].
Proof.
  apply (absent_field_is_missing Decimal.str_as_int Sample.without_hobbies
           "activities" "hobbies" (delete "hobbies" (list_to_map Sample.activities))).
  - apply (bool_decide_unpack _). vm_compute. exact I.
  - reflexivity.
  - reflexivity.
Defined.

Lemma group_must_be_mapping_witness :
  errors_at [Key "activities"] (reported Decimal.str_as_int Sample.activities_as_list)
  = [ErrorDetails [Key "activities"] model_type].
Proof.
  apply (group_must_be_mapping Decimal.str_as_int Sample.activities_as_list
           "activities" (PList [PStr "soccer"])).
  - apply (bool_decide_unpack _). vm_compute. exact I.
  - reflexivity.
  - discriminate.
Defined.

Lemma int_fields_whole_range_witness :
  passes Decimal.str_as_int Sample.student Sample.record
    "digital_metrics" "avg_screen_time_min" (PInt 720)
  ∧ fails Decimal.str_as_int Sample.student
      "digital_metrics" "avg_screen_time_min" (PInt 2000) OutOfRange.
Proof.
  split.
  - apply (int_fields_whole_range Decimal.str_as_int Sample.student Sample.record
             "digital_metrics" "avg_screen_time_min" 0 1440 720).
    + reflexivity.
    + apply (bool_decide_unpack _). vm_compute. exact I.
    + lia.
  - apply (int_fields_whole_range Decimal.str_as_int Sample.student Sample.record
             "digital_metrics" "avg_screen_time_min" 0 1440 2000).
    + reflexivity.
    + apply (bool_decide_unpack _). vm_compute. exact I.
    + lia.
Defined.

Lemma sample_record_ok : CannizzaroStudent_ok Sample.record.
Proof.
  unfold CannizzaroStudent_ok, Demographics_ok, Academics_ok, Behavioral_ok,
    Activities_ok, DigitalMetrics_ok, vocabulary_list.
  repeat match goal with |- _ ∧ _ => split end;
    try (cbn; lia); try discriminate; apply (bool_decide_unpack _); by vm_compute.
Qed.

Lemma dump_validates_back_witness :
  CannizzaroStudent_new Decimal.str_as_int (model_dump Sample.record)
  = Return Sample.record
  ∧ CannizzaroStudent_new Decimal.str_as_int
      (<["_id" := PStr "abc123"]> (model_dump Sample.record))
    = Return Sample.record.
Proof.
  apply (dump_validates_back Decimal.str_as_int Sample.record "_id" (PStr "abc123")).
  - exact sample_record_ok.
  - apply (bool_decide_unpack _). vm_compute. exact I.
Defined.

Lemma unknown_nested_key_discarded_witness :
  CannizzaroStudent_new Decimal.str_as_int
    (set_field "demographics" "nickname" (PStr "Bobby") Sample.student)
  = CannizzaroStudent_new Decimal.str_as_int Sample.student.
Proof.
  apply (unknown_nested_key_discarded Decimal.str_as_int Sample.student
           "demographics" "nickname" (PStr "Bobby")).
  apply (bool_decide_unpack _). vm_compute. exact I.
Defined.

Lemma str_fields_take_only_str_witness :
  fails Decimal.str_as_int Sample.student "demographics" "alias" (PInt 12345)
    TypeMismatch.
Proof.
  apply (str_fields_take_only_str Decimal.str_as_int Sample.student Sample.record
           "demographics" "alias" (PInt 12345)).
  - reflexivity.
  - apply (bool_decide_unpack _). vm_compute. exact I.
  - reflexivity.
Defined.

Lemma enums_take_only_literals_witness :
  fails Decimal.str_as_int Sample.student "behavioral" "humor_style" (PInt 1)
    InvalidEnum
  ∧ (∃ r', CannizzaroStudent_new Decimal.str_as_int
             (set_field "behavioral" "best_work_time" (PBool true) Sample.student)
           = Return r'
           ∧ model_dump r'
             = set_field "behavioral" "best_work_time" (PInt 1)
                 (model_dump Sample.record))
  ∧ (∃ r', CannizzaroStudent_new Decimal.str_as_int
             (set_field "behavioral" "best_work_time"
                (PFloat (S754_finite false 6755399441055744 (-51))) Sample.student)
           = Return r'
           ∧ model_dump r'
             = set_field "behavioral" "best_work_time" (PInt 3)
                 (model_dump Sample.record))
  ∧ fails Decimal.str_as_int Sample.student "behavioral" "best_work_time" (PStr "1")
      InvalidEnum
  ∧ fails Decimal.str_as_int Sample.student "behavioral" "best_work_time"
      (PBool false) InvalidEnum.
Proof.
  assert (("behavioral", "humor_style", HumorStyleType) ∈ str_enum_fields)
    as Hhs by (apply (bool_decide_unpack _); vm_compute; exact I).
  split; [|split; [|split; [|split]]].
  - apply (enums_take_only_literals Decimal.str_as_int Sample.student Sample.record
             "behavioral" "humor_style" HumorStyleType (PInt 1) eq_refl Hhs).
    reflexivity.
  - apply (enums_take_only_literals Decimal.str_as_int Sample.student Sample.record
             "behavioral" "humor_style" HumorStyleType (PBool true) eq_refl Hhs).
    + reflexivity.
    + reflexivity.
    + apply (bool_decide_unpack _). vm_compute. exact I.
  - apply (enums_take_only_literals Decimal.str_as_int Sample.student Sample.record
             "behavioral" "humor_style" HumorStyleType
             (PFloat (S754_finite false 6755399441055744 (-51))) eq_refl Hhs).
    + reflexivity.
    + reflexivity.
    + apply (bool_decide_unpack _). vm_compute. exact I.
  - apply (enums_take_only_literals Decimal.str_as_int Sample.student Sample.record
             "behavioral" "humor_style" HumorStyleType (PStr "1") eq_refl Hhs).
    + reflexivity.
    + intros n Hn. discriminate Hn.
  - apply (enums_take_only_literals Decimal.str_as_int Sample.student Sample.record
             "behavioral" "humor_style" HumorStyleType (PBool false) eq_refl Hhs).
    + reflexivity.
    + intros n [= <-]. apply (bool_decide_unpack _). vm_compute. exact I.
Defined.

Lemma int_fields_reject_none_and_containers_witness :
  fails Decimal.str_as_int Sample.student "demographics" "siblings" PNone
    TypeMismatch.
Proof.
  apply (int_fields_reject_none_and_containers Decimal.str_as_int
           Sample.student Sample.record "demographics" "siblings" 0 20 PNone).
  - reflexivity.
  - apply (bool_decide_unpack _). vm_compute. exact I.
  - by left.
Defined.
